(** * terraform-provider-switchcloud: the provider's resources, data source
      and transport, embedded from the Go sources

    The development follows the Go code function by function.

    - Go strings are byte strings: [string].
    - A [types.String] / [types.Bool] of the plugin framework is a tagged
      value [Null | Unknown | Known v].
    - [resp.Diagnostics] is a list of diagnostics, [resp.State] an optional
      model ([None] once [RemoveResource] has been called, or before anything
      was stored).
    - A JSON body is kept as the document it denotes; the raw bytes of a
      response are kept next to it because the code quotes them in its
      diagnostics.
    - The only effect of the code is [client.Do]: the methods are written in
      a state monad over a [World] that holds the remote system and the log
      of the requests that reached it.
    - What belongs to the Go libraries and cannot be read off the sources of
      the provider (which URLs [net/url] refuses, the wording of the type
      errors of [encoding/json]) is taken as a parameter, class [GoLib]. *)

From Stdlib Require Import String Ascii ZArith List DecimalString DecimalZ Lia.
From stdpp Require Import base decidable option list strings gmap.

Open Scope string_scope.
Open Scope list_scope.

(** ** Go library functions used by the provider *)

(** [error] values are only ever printed with [%s]: an error is its text. *)
Definition error := string.

Inductive result (A : Type) : Type :=
  | Ok (a : A)
  | Err (e : error).
Arguments Ok {A} a.
Arguments Err {A} e.

(** [strings.HasSuffix] and [strings.TrimSuffix]. *)
Definition strings_HasSuffix (s suffix : string) : bool :=
  (String.length suffix <=? String.length s)%nat &&
  String.eqb
    (substring (String.length s - String.length suffix) (String.length suffix) s)
    suffix.

Definition strings_TrimSuffix (s suffix : string) : string :=
  if strings_HasSuffix s suffix
  then substring 0 (String.length s - String.length suffix) s
  else s.

(** [strings.Split(s, sep)] for a separator of one byte, the only way the
    provider calls it: the pieces of [s] between the occurrences of [sep],
    one more piece than there are separators. *)
Fixpoint strings_Split (s : string) (sep : ascii) : list string :=
  match s with
  | EmptyString => [EmptyString]
  | String c s' =>
      if Ascii.eqb c sep then EmptyString :: strings_Split s' sep
      else match strings_Split s' sep with
           | p :: ps => String c p :: ps
           | [] => [String c EmptyString]
           end
  end.

(** The verb [%d] of [fmt.Sprintf] on an [int]. *)
Definition fmt_d (n : Z) : string := NilZero.string_of_int (Z.to_int n).

(** ** Values of the plugin framework *)

Inductive Value (A : Type) : Type :=
  | Null
  | Unknown
  | Known (a : A).
Arguments Null {A}.
Arguments Unknown {A}.
Arguments Known {A} a.

Definition types_String := Value string.
Definition types_Bool := Value bool.

Definition IsNull {A} (v : Value A) : bool :=
  match v with Null => true | _ => false end.

Definition IsUnknown {A} (v : Value A) : bool :=
  match v with Unknown => true | _ => false end.

(** [ValueString] returns the empty string for a null or unknown value. *)
Definition ValueString (v : types_String) : string :=
  match v with Known s => s | _ => "" end.

Definition types_StringValue (s : string) : types_String := Known s.
Definition types_BoolValue (b : bool) : types_Bool := Known b.

(** ** Diagnostics *)

Inductive Severity := SeverityError | SeverityWarning.

Record Diagnostic := {
  severity : Severity;
  Summary : string;
  Detail : string
}.

#[global] Instance Severity_eq_dec : EqDecision Severity.
Proof. solve_decision. Defined.

#[global] Instance Diagnostic_eq_dec : EqDecision Diagnostic.
Proof. solve_decision. Defined.

Definition Diagnostics := list Diagnostic.

Definition NewErrorDiagnostic (summary detail : string) : Diagnostic :=
  {| severity := SeverityError; Summary := summary; Detail := detail |}.

Definition is_error (d : Diagnostic) : bool :=
  match severity d with SeverityError => true | SeverityWarning => false end.

Definition HasError (ds : Diagnostics) : bool := existsb is_error ds.

(** [Diagnostics.AddError]: the framework does not append a diagnostic that
    the list already contains. *)
Definition Diagnostics_AddError (ds : Diagnostics) (summary detail : string)
  : Diagnostics :=
  let d := NewErrorDiagnostic summary detail in
  if decide (d ∈ ds) then ds else ds ++ [d].

(** The response of a resource or data source method: [CreateResponse],
    [ReadResponse], [UpdateResponse], [DeleteResponse] and
    [ImportStateResponse] all carry the diagnostics and the state that the
    framework records when the method returns. *)
Record Resp (Model : Type) := {
  diags : Diagnostics;
  State : option Model
}.
Arguments diags {Model} _.
Arguments State {Model} _.

(** The response the framework hands to a method: no diagnostics yet. *)
Definition new_resp {Model} (st : option Model) : Resp Model :=
  {| diags := []; State := st |}.

Definition AddError {Model} (resp : Resp Model) (summary detail : string)
  : Resp Model :=
  {| diags := Diagnostics_AddError (diags resp) summary detail;
     State := State resp |}.

Definition State_Set {Model} (resp : Resp Model) (data : Model) : Resp Model :=
  {| diags := diags resp; State := Some data |}.

Definition State_RemoveResource {Model} (resp : Resp Model) : Resp Model :=
  {| diags := diags resp; State := None |}.

(** ** Schemas *)

Inductive PlanModifier := RequiresReplace | UseStateForUnknown.

(** An attribute of a schema, with the fields the provider sets. *)
Module Attribute.
Record t := {
  Required : bool;
  Optional : bool;
  Computed : bool;
  Sensitive : bool;
  PlanModifiers : list PlanModifier
}.

Definition required (modifiers : list PlanModifier) : t :=
  {| Required := true; Optional := false; Computed := false;
     Sensitive := false; PlanModifiers := modifiers |}.

Definition optional (modifiers : list PlanModifier) : t :=
  {| Required := false; Optional := true; Computed := false;
     Sensitive := false; PlanModifiers := modifiers |}.

Definition computed (modifiers : list PlanModifier) : t :=
  {| Required := false; Optional := false; Computed := true;
     Sensitive := false; PlanModifiers := modifiers |}.

Definition optional_computed (modifiers : list PlanModifier) : t :=
  {| Required := false; Optional := true; Computed := true;
     Sensitive := false; PlanModifiers := modifiers |}.
End Attribute.

(** ** JSON documents *)

#[warnings="-register-all"]
Inductive json : Type :=
  | JNull
  | JBool (b : bool)
  | JNum (literal : string)
  | JStr (s : string)
  | JArr (elems : list json)
  | JObj (members : list (string * json)).

(** What [io.ReadAll] returns for a response body: the bytes, and the JSON
    document they are, or the syntax error of [encoding/json]. *)
Module Bytes.
Record t := { raw : string; parsed : result json }.
End Bytes.

(** ** net/http *)

Module Request.
Record t := {
  Method : string;
  URL : string;
  Header : gmap string (list string);
  Body : option json
}.
End Request.

(** The body of a response is a stream: reading it gives its bytes or
    fails. *)
Inductive BodyStream :=
  | Readable (b : Bytes.t)
  | Broken (e : error).

Module Response.
Record t := { StatusCode : Z; Body : BodyStream }.
End Response.

Definition io_ReadAll (b : BodyStream) : result Bytes.t :=
  match b with
  | Readable bs => Ok bs
  | Broken e => Err e
  end.

Definition StatusOK : Z := 200.
Definition StatusCreated : Z := 201.
Definition StatusNoContent : Z := 204.
Definition StatusNotFound : Z := 404.

(** [Header.Set]: the key gets exactly this value.  The keys the provider
    sets are already in canonical form. *)
Definition Header_Set (req : Request.t) (key value : string) : Request.t :=
  {| Request.Method := Request.Method req;
     Request.URL := Request.URL req;
     Request.Header := <[key := [value]]> (Request.Header req);
     Request.Body := Request.Body req |}.

(** Parameters standing for the Go libraries. *)
Class GoLib := {
  (** [net/url]: the error of [url.Parse] on a URL it refuses. *)
  url_Parse_error : string -> option error;
  (** [encoding/json]: the text of the type error for a JSON value that
      does not fit the Go field of the given path. *)
  UnmarshalTypeError : json -> string -> error;
  (** [encoding/json]: the case folding under which the key of a JSON
      object selects a field of a struct. *)
  foldName : string -> string
}.

(** ** The world outside the provider *)

(** The remote system answers a request, possibly depending on the requests
    it has received before; [sent] logs the requests that reached it. *)
Record World := {
  remote : list Request.t -> Request.t -> result Response.t;
  sent : list Request.t
}.

Definition M (A : Type) : Type := World -> A * World.

Definition ret {A} (a : A) : M A := fun w => (a, w).

Definition bind {A B} (m : M A) (k : A -> M B) : M B :=
  fun w => let (a, w') := m w in k a w'.

#[global] Instance M_ret : MRet M := @ret.
#[global] Instance M_bind : MBind M := fun A B k m => bind m k.

(** The interface [http.RoundTripper]. *)
Record RoundTripper := { RoundTrip : Request.t -> M (result Response.t) }.

(** [http.DefaultTransport]: the request goes to the remote system. *)
Definition DefaultTransport : RoundTripper :=
  {| RoundTrip := fun req w =>
       (remote w (sent w) req,
        {| remote := remote w; sent := sent w ++ [req] |}) |}.

Module Client.
Record t := { Transport : RoundTripper }.
End Client.

Definition DefaultClient : Client.t :=
  {| Client.Transport := DefaultTransport |}.

(** [client.Do]: one round trip through the client's transport.  What
    [http.Client] does on its own behind [Do] (following a redirect) is not
    part of the provider: the answer of [remote] is the response that [Do]
    returns. *)
Definition Client_Do (c : Client.t) (req : Request.t) : M (result Response.t) :=
  RoundTrip (Client.Transport c) req.

(** [http.NewRequestWithContext]: fails when the URL does not parse. *)
Definition http_NewRequestWithContext `{GoLib}
    (method url : string) (body : option json) : result Request.t :=
  match url_Parse_error url with
  | Some e => Err e
  | None =>
      Ok {| Request.Method := method; Request.URL := url;
            Request.Header := ∅; Request.Body := body |}
  end.

(** ** encoding/json on the structs of the provider *)

Section Decode.
Context `{GoLib}.

Definition key_is (key tag : string) : bool :=
  String.eqb (foldName key) (foldName tag).

Definition result_map {A B} (f : A -> B) (r : result A) : result B :=
  match r with Ok a => Ok (f a) | Err e => Err e end.

(** A JSON string fills a Go string, [null] leaves it as it is, anything
    else is a type error. *)
Definition decode_string (path : string) (v : json) (cur : string)
  : result string :=
  match v with
  | JStr s => Ok s
  | JNull => Ok cur
  | _ => Err (UnmarshalTypeError v path)
  end.

Definition decode_bool (path : string) (v : json) (cur : bool)
  : result bool :=
  match v with
  | JBool b => Ok b
  | JNull => Ok cur
  | _ => Err (UnmarshalTypeError v path)
  end.

(** A JSON object fills a struct member by member, in the order of the
    document; the first type error is the error of the whole call. *)
Definition decode_struct {T} (path : string)
    (field : string -> json -> T -> result T) (v : json) (cur : T)
  : result T :=
  match v with
  | JObj members =>
      fold_left
        (fun acc kv =>
           match acc with
           | Ok x => field (fst kv) (snd kv) x
           | Err e => Err e
           end)
        members (Ok cur)
  | JNull => Ok cur
  | _ => Err (UnmarshalTypeError v path)
  end.

(** A JSON array fills a slice, each element decoded into a zero value. *)
Fixpoint decode_elems {T} (decode : json -> result T) (elems : list json)
  : result (list T) :=
  match elems with
  | [] => Ok []
  | e :: es =>
      match decode e with
      | Err err => Err err
      | Ok x => result_map (cons x) (decode_elems decode es)
      end
  end.

Definition decode_slice {T} (path : string) (decode : json -> result T)
    (v : json) : result (list T) :=
  match v with
  | JArr elems => decode_elems decode elems
  | JNull => Ok []
  | _ => Err (UnmarshalTypeError v path)
  end.

(** [json.Unmarshal(body, &x)] with [x] freshly declared. *)
Definition json_Unmarshal {T} (decode : json -> result T) (body : Bytes.t)
  : result T :=
  match Bytes.parsed body with
  | Err e => Err e
  | Ok doc => decode doc
  end.
End Decode.

(** A string field tagged [omitempty] is left out when it is empty. *)
Definition omitempty (key value : string) : list (string * json) :=
  if String.eqb value "" then [] else [(key, JStr value)].

(** ** The project resource *)

(** [Project]: the API response structure. *)
Module Project.
Record t := {
  Id : string;
  Name : string;
  Description : string;
  OrganisationId : string;
  Archived : bool;
  ArchivedAt : string;
  CreatedAt : string;
  UpdatedAt : string
}.

Definition zero : t :=
  {| Id := ""; Name := ""; Description := ""; OrganisationId := "";
     Archived := false; ArchivedAt := ""; CreatedAt := ""; UpdatedAt := "" |}.

Definition set_Id (p : t) (x : string) : t :=
  {| Id := x; Name := Name p; Description := Description p;
     OrganisationId := OrganisationId p; Archived := Archived p;
     ArchivedAt := ArchivedAt p; CreatedAt := CreatedAt p;
     UpdatedAt := UpdatedAt p |}.
Definition set_Name (p : t) (x : string) : t :=
  {| Id := Id p; Name := x; Description := Description p;
     OrganisationId := OrganisationId p; Archived := Archived p;
     ArchivedAt := ArchivedAt p; CreatedAt := CreatedAt p;
     UpdatedAt := UpdatedAt p |}.
Definition set_Description (p : t) (x : string) : t :=
  {| Id := Id p; Name := Name p; Description := x;
     OrganisationId := OrganisationId p; Archived := Archived p;
     ArchivedAt := ArchivedAt p; CreatedAt := CreatedAt p;
     UpdatedAt := UpdatedAt p |}.
Definition set_OrganisationId (p : t) (x : string) : t :=
  {| Id := Id p; Name := Name p; Description := Description p;
     OrganisationId := x; Archived := Archived p;
     ArchivedAt := ArchivedAt p; CreatedAt := CreatedAt p;
     UpdatedAt := UpdatedAt p |}.
Definition set_Archived (p : t) (x : bool) : t :=
  {| Id := Id p; Name := Name p; Description := Description p;
     OrganisationId := OrganisationId p; Archived := x;
     ArchivedAt := ArchivedAt p; CreatedAt := CreatedAt p;
     UpdatedAt := UpdatedAt p |}.
Definition set_ArchivedAt (p : t) (x : string) : t :=
  {| Id := Id p; Name := Name p; Description := Description p;
     OrganisationId := OrganisationId p; Archived := Archived p;
     ArchivedAt := x; CreatedAt := CreatedAt p;
     UpdatedAt := UpdatedAt p |}.
Definition set_CreatedAt (p : t) (x : string) : t :=
  {| Id := Id p; Name := Name p; Description := Description p;
     OrganisationId := OrganisationId p; Archived := Archived p;
     ArchivedAt := ArchivedAt p; CreatedAt := x;
     UpdatedAt := UpdatedAt p |}.
Definition set_UpdatedAt (p : t) (x : string) : t :=
  {| Id := Id p; Name := Name p; Description := Description p;
     OrganisationId := OrganisationId p; Archived := Archived p;
     ArchivedAt := ArchivedAt p; CreatedAt := CreatedAt p;
     UpdatedAt := x |}.

(** The [json] tags of the struct: one member of a JSON object. *)
Definition field `{GoLib} (key : string) (v : json) (p : t) : result t :=
  if key_is key "id" then
    result_map (set_Id p) (decode_string "Project.id" v (Id p))
  else if key_is key "name" then
    result_map (set_Name p) (decode_string "Project.name" v (Name p))
  else if key_is key "description" then
    result_map (set_Description p)
      (decode_string "Project.description" v (Description p))
  else if key_is key "organisation_id" then
    result_map (set_OrganisationId p)
      (decode_string "Project.organisation_id" v (OrganisationId p))
  else if key_is key "archived" then
    result_map (set_Archived p)
      (decode_bool "Project.archived" v (Archived p))
  else if key_is key "archived_at" then
    result_map (set_ArchivedAt p)
      (decode_string "Project.archived_at" v (ArchivedAt p))
  else if key_is key "created_at" then
    result_map (set_CreatedAt p)
      (decode_string "Project.created_at" v (CreatedAt p))
  else if key_is key "updated_at" then
    result_map (set_UpdatedAt p)
      (decode_string "Project.updated_at" v (UpdatedAt p))
  else Ok p.

Definition decode `{GoLib} (v : json) : result t :=
  decode_struct "Project" field v zero.
End Project.

(** [ProjectCreateRequest]: the request body for creating a project. *)
Module ProjectCreateRequest.
Record t := { Name : string; Description : string }.

Definition marshal (r : t) : json :=
  JObj ([("name", JStr (Name r))] ++ omitempty "description" (Description r)).
End ProjectCreateRequest.

(** [ProjectResourceModel]: the resource data model. *)
Module ProjectResourceModel.
Record t := {
  Id : types_String;
  Name : types_String;
  Description : types_String;
  OrganisationId : types_String;
  Archived : types_Bool;
  ArchivedAt : types_String;
  CreatedAt : types_String;
  UpdatedAt : types_String
}.

(** A state in which nothing has been set. *)
Definition null : t :=
  {| Id := Null; Name := Null; Description := Null; OrganisationId := Null;
     Archived := Null; ArchivedAt := Null; CreatedAt := Null;
     UpdatedAt := Null |}.

Definition set_Id (d : t) (x : types_String) : t :=
  {| Id := x; Name := Name d; Description := Description d;
     OrganisationId := OrganisationId d; Archived := Archived d;
     ArchivedAt := ArchivedAt d; CreatedAt := CreatedAt d;
     UpdatedAt := UpdatedAt d |}.

(** The eight assignments "Update model with response data". *)
Definition of_Project (project : Project.t) : t :=
  {| Id := types_StringValue (Project.Id project);
     Name := types_StringValue (Project.Name project);
     Description := types_StringValue (Project.Description project);
     OrganisationId := types_StringValue (Project.OrganisationId project);
     Archived := types_BoolValue (Project.Archived project);
     ArchivedAt := types_StringValue (Project.ArchivedAt project);
     CreatedAt := types_StringValue (Project.CreatedAt project);
     UpdatedAt := types_StringValue (Project.UpdatedAt project) |}.
End ProjectResourceModel.

Module ProjectResource.
Record t := { client : Client.t; endpoint : string }.

Definition Model := ProjectResourceModel.t.

Definition Schema : gmap string Attribute.t :=
  list_to_map
    [("id", Attribute.computed [UseStateForUnknown]);
     ("name", Attribute.required [RequiresReplace]);
     ("description", Attribute.optional [RequiresReplace]);
     ("organisation_id", Attribute.computed []);
     ("archived", Attribute.computed []);
     ("archived_at", Attribute.computed []);
     ("created_at", Attribute.computed []);
     ("updated_at", Attribute.computed [])].

Section Methods.
Context `{GoLib}.

(** [req.Plan.Get] reads the plan into [data]; the response starts
    without state. *)
Definition Create (r : t) (plan : Model) (resp : Resp Model)
  : M (Resp Model) :=
  let data := plan in
  if HasError (diags resp) then mret resp else
  let createRequest :=
    {| ProjectCreateRequest.Name :=
         ValueString (ProjectResourceModel.Name data);
       ProjectCreateRequest.Description :=
         if negb (IsNull (ProjectResourceModel.Description data))
         then ValueString (ProjectResourceModel.Description data)
         else "" |} in
  (* json.Marshal cannot fail on a struct of strings *)
  let jsonBody := ProjectCreateRequest.marshal createRequest in
  match http_NewRequestWithContext "POST"
          (strings_TrimSuffix (endpoint r) "/" +:+ "/api/v1/projects")
          (Some jsonBody) with
  | Err err =>
      mret (AddError resp "Client Error"
              ("Unable to create request, got error: " +:+ err))
  | Ok httpReq =>
    let httpReq := Header_Set httpReq "Content-Type" "application/json" in
    let httpReq := Header_Set httpReq "Accept" "application/json" in
    httpResp ← Client_Do (client r) httpReq;
    match httpResp with
    | Err err =>
        mret (AddError resp "Client Error"
                ("Unable to create project, got error: " +:+ err))
    | Ok httpResp =>
      match io_ReadAll (Response.Body httpResp) with
      | Err err =>
          mret (AddError resp "Client Error"
                  ("Unable to read response body, got error: " +:+ err))
      | Ok body =>
        if negb (Response.StatusCode httpResp =? StatusCreated)%Z then
          mret (AddError resp "Client Error"
                  ("API returned status "
                   +:+ fmt_d (Response.StatusCode httpResp)
                   +:+ ": " +:+ Bytes.raw body))
        else
          match json_Unmarshal Project.decode body with
          | Err err =>
              mret (AddError resp "Client Error"
                      ("Unable to parse response, got error: " +:+ err))
          | Ok project =>
              mret (State_Set resp (ProjectResourceModel.of_Project project))
          end
      end
    end
  end.

(** [req.State.Get] reads the prior state into [data]; the response
    starts with that state. *)
Definition Read (r : t) (state : Model) (resp : Resp Model)
  : M (Resp Model) :=
  let data := state in
  if HasError (diags resp) then mret resp else
  match http_NewRequestWithContext "GET"
          (strings_TrimSuffix (endpoint r) "/" +:+ "/api/v1/projects/"
           +:+ ValueString (ProjectResourceModel.Id data))
          None with
  | Err err =>
      mret (AddError resp "Client Error"
              ("Unable to create request, got error: " +:+ err))
  | Ok httpReq =>
    let httpReq := Header_Set httpReq "Accept" "application/json" in
    httpResp ← Client_Do (client r) httpReq;
    match httpResp with
    | Err err =>
        mret (AddError resp "Client Error"
                ("Unable to read project, got error: " +:+ err))
    | Ok httpResp =>
      match io_ReadAll (Response.Body httpResp) with
      | Err err =>
          mret (AddError resp "Client Error"
                  ("Unable to read response body, got error: " +:+ err))
      | Ok body =>
        if (Response.StatusCode httpResp =? StatusNotFound)%Z then
          mret (State_RemoveResource resp)
        else if negb (Response.StatusCode httpResp =? StatusOK)%Z then
          mret (AddError resp "Client Error"
                  ("API returned status "
                   +:+ fmt_d (Response.StatusCode httpResp)
                   +:+ ": " +:+ Bytes.raw body))
        else
          match json_Unmarshal Project.decode body with
          | Err err =>
              mret (AddError resp "Client Error"
                      ("Unable to parse response, got error: " +:+ err))
          | Ok project =>
              mret (State_Set resp (ProjectResourceModel.of_Project project))
          end
      end
    end
  end.

Definition Update (r : t) (plan state : Model) (resp : Resp Model)
  : M (Resp Model) :=
  mret (AddError resp "API Error"
          "Unable to update project, method is not implemented on server").

Definition Delete (r : t) (state : Model) (resp : Resp Model)
  : M (Resp Model) :=
  mret (AddError resp "API Error"
          "Unable to delete project, method is not implemented on server").

(** [resource.ImportStatePassthroughID] on the path [id]: the import
    identifier becomes the [id] of the state. *)
Definition ImportState (r : t) (ID : string) (resp : Resp Model)
  : M (Resp Model) :=
  mret {| diags := diags resp;
          State := Some (ProjectResourceModel.set_Id
                           (default ProjectResourceModel.null (State resp))
                           (types_StringValue ID)) |}.
End Methods.
End ProjectResource.

(** ** The project member resource *)

Module ProjectMemberUser.
Record t := { Id : string; EMail : string; DisplayName : string }.

Definition zero : t := {| Id := ""; EMail := ""; DisplayName := "" |}.

Definition set_Id (u : t) (x : string) : t :=
  {| Id := x; EMail := EMail u; DisplayName := DisplayName u |}.
Definition set_EMail (u : t) (x : string) : t :=
  {| Id := Id u; EMail := x; DisplayName := DisplayName u |}.
Definition set_DisplayName (u : t) (x : string) : t :=
  {| Id := Id u; EMail := EMail u; DisplayName := x |}.

Definition field `{GoLib} (key : string) (v : json) (u : t) : result t :=
  if key_is key "id" then
    result_map (set_Id u) (decode_string "ProjectMember.user.id" v (Id u))
  else if key_is key "email" then
    result_map (set_EMail u)
      (decode_string "ProjectMember.user.email" v (EMail u))
  else if key_is key "display_name" then
    result_map (set_DisplayName u)
      (decode_string "ProjectMember.user.display_name" v (DisplayName u))
  else Ok u.
End ProjectMemberUser.

(** [ProjectMember]: the API response structure. *)
Module ProjectMember.
Record t := {
  Id : string;
  ProjectId : string;
  UserId : string;
  User : ProjectMemberUser.t
}.

Definition zero : t :=
  {| Id := ""; ProjectId := ""; UserId := ""; User := ProjectMemberUser.zero |}.

Definition set_Id (m : t) (x : string) : t :=
  {| Id := x; ProjectId := ProjectId m; UserId := UserId m; User := User m |}.
Definition set_ProjectId (m : t) (x : string) : t :=
  {| Id := Id m; ProjectId := x; UserId := UserId m; User := User m |}.
Definition set_UserId (m : t) (x : string) : t :=
  {| Id := Id m; ProjectId := ProjectId m; UserId := x; User := User m |}.
Definition set_User (m : t) (x : ProjectMemberUser.t) : t :=
  {| Id := Id m; ProjectId := ProjectId m; UserId := UserId m; User := x |}.

(** The nested [user] object is decoded into the field as it stands. *)
Definition field `{GoLib} (key : string) (v : json) (m : t) : result t :=
  if key_is key "id" then
    result_map (set_Id m) (decode_string "ProjectMember.id" v (Id m))
  else if key_is key "project_id" then
    result_map (set_ProjectId m)
      (decode_string "ProjectMember.project_id" v (ProjectId m))
  else if key_is key "user_id" then
    result_map (set_UserId m)
      (decode_string "ProjectMember.user_id" v (UserId m))
  else if key_is key "user" then
    result_map (set_User m)
      (decode_struct "ProjectMember.user" ProjectMemberUser.field v (User m))
  else Ok m.

Definition decode `{GoLib} (v : json) : result t :=
  decode_struct "ProjectMember" field v zero.
End ProjectMember.

Module ProjectMemberCreateRequest.
Record t := { UserId : string; EMail : string }.

Definition zero : t := {| UserId := ""; EMail := "" |}.

Definition marshal (r : t) : json :=
  JObj (omitempty "user_id" (UserId r) ++ omitempty "email" (EMail r)).
End ProjectMemberCreateRequest.

(** [ProjectMemberResourceModel]: the resource data model. *)
Module ProjectMemberResourceModel.
Record t := {
  Id : types_String;
  ProjectId : types_String;
  UserId : types_String;
  EMail : types_String;
  DisplayName : types_String
}.

(** The zero value of the struct, [var data ProjectMemberResourceModel]:
    every attribute null. *)
Definition null : t :=
  {| Id := Null; ProjectId := Null; UserId := Null; EMail := Null;
     DisplayName := Null |}.

Definition set_Id (d : t) (x : types_String) : t :=
  {| Id := x; ProjectId := ProjectId d; UserId := UserId d;
     EMail := EMail d; DisplayName := DisplayName d |}.
Definition set_ProjectId (d : t) (x : types_String) : t :=
  {| Id := Id d; ProjectId := x; UserId := UserId d;
     EMail := EMail d; DisplayName := DisplayName d |}.

(** The five assignments "Update model with response data". *)
Definition of_ProjectMember (projectMember : ProjectMember.t) : t :=
  {| Id := types_StringValue (ProjectMember.Id projectMember);
     ProjectId := types_StringValue (ProjectMember.ProjectId projectMember);
     UserId := types_StringValue (ProjectMember.UserId projectMember);
     EMail :=
       types_StringValue
         (ProjectMemberUser.EMail (ProjectMember.User projectMember));
     DisplayName :=
       types_StringValue
         (ProjectMemberUser.DisplayName (ProjectMember.User projectMember)) |}.
End ProjectMemberResourceModel.

(** [resp.State.SetAttribute]: one attribute of the state is written, the
    others stay as they are (null in a state that holds nothing yet). *)
Definition State_SetAttribute {Model} (null : Model)
    (set : Model -> types_String -> Model) (resp : Resp Model) (x : string)
  : Resp Model :=
  {| diags := diags resp;
     State := Some (set (default null (State resp)) (types_StringValue x)) |}.

Module ProjectMemberResource.
Record t := { client : Client.t; endpoint : string }.

Definition Model := ProjectMemberResourceModel.t.

Definition Schema : gmap string Attribute.t :=
  list_to_map
    [("id", Attribute.computed [UseStateForUnknown]);
     ("project_id", Attribute.required [RequiresReplace]);
     ("user_id", Attribute.optional_computed [RequiresReplace]);
     ("email", Attribute.optional_computed [RequiresReplace]);
     ("display_name", Attribute.computed [])].

Section Methods.
Context `{GoLib}.

(** [req.Config.Get] reads the configuration into [config]. *)
Definition ValidateConfig (r : t) (config : Model) (ds : Diagnostics)
  : M Diagnostics :=
  if HasError ds then mret ds else
  let ds :=
    if IsNull (ProjectMemberResourceModel.UserId config)
       && IsNull (ProjectMemberResourceModel.EMail config)
    then Diagnostics_AddError ds "Configuration Error"
           "Either 'user_id' or 'email' must be provided for a project member."
    else ds in
  let ds :=
    if negb (IsNull (ProjectMemberResourceModel.UserId config))
       && negb (IsNull (ProjectMemberResourceModel.EMail config))
    then Diagnostics_AddError ds "Configuration Error"
           "Only one of 'user_id' or 'email' can be provided for a project member."
    else ds in
  mret ds.

Definition Create (r : t) (plan : Model) (resp : Resp Model)
  : M (Resp Model) :=
  let data := plan in
  if HasError (diags resp) then mret resp else
  let createRequest := ProjectMemberCreateRequest.zero in
  let createRequest :=
    if IsUnknown (ProjectMemberResourceModel.UserId data) then
      {| ProjectMemberCreateRequest.UserId :=
           ProjectMemberCreateRequest.UserId createRequest;
         ProjectMemberCreateRequest.EMail :=
           ValueString (ProjectMemberResourceModel.EMail data) |}
    else
      {| ProjectMemberCreateRequest.UserId :=
           ValueString (ProjectMemberResourceModel.UserId data);
         ProjectMemberCreateRequest.EMail :=
           ProjectMemberCreateRequest.EMail createRequest |} in
  (* json.Marshal cannot fail on a struct of strings *)
  let jsonBody := ProjectMemberCreateRequest.marshal createRequest in
  match http_NewRequestWithContext "POST"
          (strings_TrimSuffix (endpoint r) "/" +:+ "/api/v1/projects/"
           +:+ ValueString (ProjectMemberResourceModel.ProjectId data)
           +:+ "/members")
          (Some jsonBody) with
  | Err err =>
      mret (AddError resp "Client Error"
              ("Unable to create request, got error: " +:+ err))
  | Ok httpReq =>
    let httpReq := Header_Set httpReq "Content-Type" "application/json" in
    let httpReq := Header_Set httpReq "Accept" "application/json" in
    httpResp ← Client_Do (client r) httpReq;
    match httpResp with
    | Err err =>
        mret (AddError resp "Client Error"
                ("Unable to create project member, got error: " +:+ err))
    | Ok httpResp =>
      match io_ReadAll (Response.Body httpResp) with
      | Err err =>
          mret (AddError resp "Client Error"
                  ("Unable to read response body, got error: " +:+ err))
      | Ok body =>
        if negb (Response.StatusCode httpResp =? StatusCreated)%Z then
          mret (AddError resp "Client Error"
                  ("API returned status "
                   +:+ fmt_d (Response.StatusCode httpResp)
                   +:+ ": " +:+ Bytes.raw body))
        else
          match json_Unmarshal ProjectMember.decode body with
          | Err err =>
              mret (AddError resp "Client Error"
                      ("Unable to parse response, got error: " +:+ err))
          | Ok projectMember =>
              mret (State_Set resp
                      (ProjectMemberResourceModel.of_ProjectMember
                         projectMember))
          end
      end
    end
  end.

Definition Read (r : t) (state : Model) (resp : Resp Model)
  : M (Resp Model) :=
  let data := state in
  if HasError (diags resp) then mret resp else
  match http_NewRequestWithContext "GET"
          (strings_TrimSuffix (endpoint r) "/" +:+ "/api/v1/projects/"
           +:+ ValueString (ProjectMemberResourceModel.ProjectId data)
           +:+ "/members/"
           +:+ ValueString (ProjectMemberResourceModel.Id data))
          None with
  | Err err =>
      mret (AddError resp "Client Error"
              ("Unable to create request, got error: " +:+ err))
  | Ok httpReq =>
    let httpReq := Header_Set httpReq "Accept" "application/json" in
    httpResp ← Client_Do (client r) httpReq;
    match httpResp with
    | Err err =>
        mret (AddError resp "Client Error"
                ("Unable to read project, got error: " +:+ err))
    | Ok httpResp =>
      match io_ReadAll (Response.Body httpResp) with
      | Err err =>
          mret (AddError resp "Client Error"
                  ("Unable to read response body, got error: " +:+ err))
      | Ok body =>
        if (Response.StatusCode httpResp =? StatusNotFound)%Z then
          mret (State_RemoveResource resp)
        else if negb (Response.StatusCode httpResp =? StatusOK)%Z then
          mret (AddError resp "Client Error"
                  ("API returned status "
                   +:+ fmt_d (Response.StatusCode httpResp)
                   +:+ ": " +:+ Bytes.raw body))
        else
          match json_Unmarshal ProjectMember.decode body with
          | Err err =>
              mret (AddError resp "Client Error"
                      ("Unable to parse response, got error: " +:+ err))
          | Ok projectMember =>
              mret (State_Set resp
                      (ProjectMemberResourceModel.of_ProjectMember
                         projectMember))
          end
      end
    end
  end.

Definition Update (r : t) (plan state : Model) (resp : Resp Model)
  : M (Resp Model) :=
  mret (AddError resp "API Error"
          "Unable to update project member, method is not implemented on server").

Definition Delete (r : t) (state : Model) (resp : Resp Model)
  : M (Resp Model) :=
  let data := state in
  if HasError (diags resp) then mret resp else
  match http_NewRequestWithContext "DELETE"
          (strings_TrimSuffix (endpoint r) "/" +:+ "/api/v1/projects/"
           +:+ ValueString (ProjectMemberResourceModel.ProjectId data)
           +:+ "/members/"
           +:+ ValueString (ProjectMemberResourceModel.Id data))
          None with
  | Err err =>
      mret (AddError resp "Client Error"
              ("Unable to create request, got error: " +:+ err))
  | Ok httpReq =>
    let httpReq := Header_Set httpReq "Accept" "application/json" in
    httpResp ← Client_Do (client r) httpReq;
    match httpResp with
    | Err err =>
        mret (AddError resp "Client Error"
                ("Unable to delete project member, got error: " +:+ err))
    | Ok httpResp =>
      match io_ReadAll (Response.Body httpResp) with
      | Err err =>
          mret (AddError resp "Client Error"
                  ("Unable to read response body, got error: " +:+ err))
      | Ok body =>
        if negb (Response.StatusCode httpResp =? StatusNoContent)%Z then
          mret (AddError resp "Client Error"
                  ("API returned status "
                   +:+ fmt_d (Response.StatusCode httpResp)
                   +:+ ": " +:+ Bytes.raw body))
        else mret resp
      end
    end
  end.

(** [data] is declared and never filled from the identifier: the two
    segments go to the state only, and the URL is built from [data]. *)
Definition ImportState (r : t) (ID : string) (resp : Resp Model)
  : M (Resp Model) :=
  let data := ProjectMemberResourceModel.null in
  let parts := strings_Split ID "/" in
  if negb (length parts =? 2)%nat then
    mret (AddError resp "Unexpected Import Identifier"
            ("Expected import identifier with format: project_id/member_id. Got: "
             +:+ ID))
  else
  let projectId := nth 0 parts "" in
  let memberId := nth 1 parts "" in
  let resp :=
    State_SetAttribute ProjectMemberResourceModel.null
      ProjectMemberResourceModel.set_ProjectId resp projectId in
  let resp :=
    State_SetAttribute ProjectMemberResourceModel.null
      ProjectMemberResourceModel.set_Id resp memberId in
  match http_NewRequestWithContext "GET"
          (strings_TrimSuffix (endpoint r) "/" +:+ "/api/v1/projects/"
           +:+ ValueString (ProjectMemberResourceModel.ProjectId data)
           +:+ "/members/"
           +:+ ValueString (ProjectMemberResourceModel.Id data))
          None with
  | Err err =>
      mret (AddError resp "Client Error"
              ("Unable to create request, got error: " +:+ err))
  | Ok httpReq =>
    let httpReq := Header_Set httpReq "Accept" "application/json" in
    httpResp ← Client_Do (client r) httpReq;
    match httpResp with
    | Err err =>
        mret (AddError resp "Client Error"
                ("Unable to read project, got error: " +:+ err))
    | Ok httpResp =>
      match io_ReadAll (Response.Body httpResp) with
      | Err err =>
          mret (AddError resp "Client Error"
                  ("Unable to read response body, got error: " +:+ err))
      | Ok body =>
        if (Response.StatusCode httpResp =? StatusNotFound)%Z then
          mret (State_RemoveResource resp)
        else if negb (Response.StatusCode httpResp =? StatusOK)%Z then
          mret (AddError resp "Client Error"
                  ("API returned status "
                   +:+ fmt_d (Response.StatusCode httpResp)
                   +:+ ": " +:+ Bytes.raw body))
        else
          match json_Unmarshal ProjectMember.decode body with
          | Err err =>
              mret (AddError resp "Client Error"
                      ("Unable to parse response, got error: " +:+ err))
          | Ok projectMember =>
              mret (State_Set resp
                      (ProjectMemberResourceModel.of_ProjectMember
                         projectMember))
          end
      end
    end
  end.
End Methods.
End ProjectMemberResource.

(** ** The project data source *)

Module ProjectDataSourceModel.
Record t := {
  Id : types_String;
  Name : types_String;
  Description : types_String;
  OrganisationId : types_String;
  Archived : types_Bool;
  ArchivedAt : types_String;
  CreatedAt : types_String;
  UpdatedAt : types_String
}.

Definition of_Project (project : Project.t) : t :=
  {| Id := types_StringValue (Project.Id project);
     Name := types_StringValue (Project.Name project);
     Description := types_StringValue (Project.Description project);
     OrganisationId := types_StringValue (Project.OrganisationId project);
     Archived := types_BoolValue (Project.Archived project);
     ArchivedAt := types_StringValue (Project.ArchivedAt project);
     CreatedAt := types_StringValue (Project.CreatedAt project);
     UpdatedAt := types_StringValue (Project.UpdatedAt project) |}.
End ProjectDataSourceModel.

Module ProjectDataSource.
Record t := { client : Client.t; endpoint : string }.

Definition Model := ProjectDataSourceModel.t.

Definition Schema : gmap string Attribute.t :=
  list_to_map
    [("id", Attribute.computed []);
     ("name", Attribute.required []);
     ("description", Attribute.computed []);
     ("organisation_id", Attribute.computed []);
     ("archived", Attribute.computed []);
     ("archived_at", Attribute.computed []);
     ("created_at", Attribute.computed []);
     ("updated_at", Attribute.computed [])].

(** The loop "Find project by name": the first project of the list whose
    name is the wanted one. *)
Fixpoint find_by_name (projects : list Project.t) (name : string)
  : option Project.t :=
  match projects with
  | [] => None
  | p :: rest =>
      if String.eqb (Project.Name p) name then Some p
      else find_by_name rest name
  end.

Section Methods.
Context `{GoLib}.

(** [req.Config.Get] reads the configuration into [data]. *)
Definition Read (d : t) (config : Model) (resp : Resp Model)
  : M (Resp Model) :=
  let data := config in
  if HasError (diags resp) then mret resp else
  match http_NewRequestWithContext "GET"
          (strings_TrimSuffix (endpoint d) "/" +:+ "/api/v1/projects")
          None with
  | Err err =>
      mret (AddError resp "Client Error"
              ("Unable to create request, got error: " +:+ err))
  | Ok httpReq =>
    let httpReq := Header_Set httpReq "Accept" "application/json" in
    httpResp ← Client_Do (client d) httpReq;
    match httpResp with
    | Err err =>
        mret (AddError resp "Client Error"
                ("Unable to read projects, got error: " +:+ err))
    | Ok httpResp =>
      match io_ReadAll (Response.Body httpResp) with
      | Err err =>
          mret (AddError resp "Client Error"
                  ("Unable to read response body, got error: " +:+ err))
      | Ok body =>
        if negb (Response.StatusCode httpResp =? StatusOK)%Z then
          mret (AddError resp "Client Error"
                  ("API returned status "
                   +:+ fmt_d (Response.StatusCode httpResp)
                   +:+ ": " +:+ Bytes.raw body))
        else
          match json_Unmarshal
                  (decode_slice "[]Project" Project.decode) body with
          | Err err =>
              mret (AddError resp "Client Error"
                      ("Unable to parse response, got error: " +:+ err))
          | Ok projects =>
              match find_by_name projects
                      (ValueString (ProjectDataSourceModel.Name data)) with
              | None =>
                  mret (AddError resp "Not Found"
                          ("No project found with name: "
                           +:+ ValueString
                                 (ProjectDataSourceModel.Name data)))
              | Some project =>
                  mret (State_Set resp
                          (ProjectDataSourceModel.of_Project project))
              end
          end
      end
    end
  end.
End Methods.
End ProjectDataSource.

(** ** The provider and its authenticated transport *)

(** [authenticatedTransport]: a transport that adds the authentication
    header. *)
Module authenticatedTransport.
Record t := { apiKey : string; transport : RoundTripper }.

Definition RoundTrip (t : t) (req : Request.t) : M (result Response.t) :=
  let req := Header_Set req "Authorization" ("Bearer " +:+ apiKey t) in
  RoundTrip (transport t) req.

(** The struct used as an [http.RoundTripper]. *)
Definition as_RoundTripper (t : t) : RoundTripper :=
  Build_RoundTripper (RoundTrip t).
End authenticatedTransport.

Module SwitchcloudProviderModel.
Record t := { Endpoint : types_String; ApiKey : types_String }.
End SwitchcloudProviderModel.

(** The two entries of the map handed to resources and data sources. *)
Module ProviderData.
Record t := { client : Client.t; endpoint : string }.
End ProviderData.

Module SwitchcloudProvider.
Definition Schema : gmap string Attribute.t :=
  list_to_map
    [("endpoint", Attribute.optional []);
     ("api_key",
      {| Attribute.Required := false; Attribute.Optional := true;
         Attribute.Computed := false; Attribute.Sensitive := true;
         Attribute.PlanModifiers := [] |})].

(** [Getenv] is [os.Getenv]: the empty string for a variable that is not
    set. *)
Definition Configure (Getenv : string -> string)
    (config : SwitchcloudProviderModel.t) : ProviderData.t :=
  let data := config in
  let endpoint := "https://api.switchcloud.com" in
  let endpoint :=
    if negb (IsNull (SwitchcloudProviderModel.Endpoint data))
    then ValueString (SwitchcloudProviderModel.Endpoint data)
    else endpoint in
  let endpoint :=
    if negb (String.eqb (Getenv "SWITCHCLOUD_ENDPOINT") "")
    then Getenv "SWITCHCLOUD_ENDPOINT"
    else endpoint in
  let client := DefaultClient in
  let ApiKey :=
    if negb (String.eqb (Getenv "SWITCHCLOUD_API_KEY") "")
    then types_StringValue (Getenv "SWITCHCLOUD_API_KEY")
    else SwitchcloudProviderModel.ApiKey data in
  let client :=
    if negb (IsNull ApiKey) then
      {| Client.Transport :=
           authenticatedTransport.as_RoundTripper
             {| authenticatedTransport.apiKey := ValueString ApiKey;
                authenticatedTransport.transport := DefaultTransport |} |}
    else client in
  {| ProviderData.client := client; ProviderData.endpoint := endpoint |}.
End SwitchcloudProvider.

(** ** Provider data, [Configure] and [Metadata] of the resources *)











(** [Metadata]: the type name of the provider, and the type names its
    resources and its data source derive from it. *)
Definition SwitchcloudProvider_Metadata (version : string) : string * string :=
  ("switchcloud", version).

Definition ProjectResource_Metadata (ProviderTypeName : string) : string :=
  ProviderTypeName +:+ "_project".

Definition ProjectMemberResource_Metadata (ProviderTypeName : string) : string :=
  ProviderTypeName +:+ "_project_member".

Definition ProjectDataSource_Metadata (ProviderTypeName : string) : string :=
  ProviderTypeName +:+ "_project".

(** The [tfsdk] tags of the three models, in the order of the fields. *)
Definition ProjectResourceModel_tfsdk : list string :=
  ["id"; "name"; "description"; "organisation_id"; "archived"; "archived_at";
   "created_at"; "updated_at"].

Definition ProjectMemberResourceModel_tfsdk : list string :=
  ["id"; "project_id"; "user_id"; "email"; "display_name"].

Definition ProjectDataSourceModel_tfsdk : list string :=
  ["id"; "name"; "description"; "organisation_id"; "archived"; "archived_at";
   "created_at"; "updated_at"].

(** ** The test server of [tests/main.go] *)

(** A JSON string fills a [*string] with a pointer to it, [null] with nil. *)
Definition decode_string_ptr `{GoLib} (path : string) (v : json)
    (cur : option string) : result (option string) :=
  match v with
  | JStr s => Ok (Some s)
  | JNull => Ok None
  | _ => Err (UnmarshalTypeError v path)
  end.

(** [Project] of the server: the description is a pointer, nil when the
    project has none. *)
Module ServerProject.
Record t := {
  Id : string;
  Name : string;
  Description : option string;
  OrganisationId : string;
  Archived : bool;
  ArchivedAt : string;
  CreatedAt : string;
  UpdatedAt : string
}.

Definition zero : t :=
  {| Id := ""; Name := ""; Description := None; OrganisationId := "";
     Archived := false; ArchivedAt := ""; CreatedAt := ""; UpdatedAt := "" |}.

Definition set_Id (p : t) (x : string) : t :=
  {| Id := x; Name := Name p; Description := Description p;
     OrganisationId := OrganisationId p; Archived := Archived p;
     ArchivedAt := ArchivedAt p; CreatedAt := CreatedAt p;
     UpdatedAt := UpdatedAt p |}.
Definition set_Name (p : t) (x : string) : t :=
  {| Id := Id p; Name := x; Description := Description p;
     OrganisationId := OrganisationId p; Archived := Archived p;
     ArchivedAt := ArchivedAt p; CreatedAt := CreatedAt p;
     UpdatedAt := UpdatedAt p |}.
Definition set_Description (p : t) (x : option string) : t :=
  {| Id := Id p; Name := Name p; Description := x;
     OrganisationId := OrganisationId p; Archived := Archived p;
     ArchivedAt := ArchivedAt p; CreatedAt := CreatedAt p;
     UpdatedAt := UpdatedAt p |}.
Definition set_OrganisationId (p : t) (x : string) : t :=
  {| Id := Id p; Name := Name p; Description := Description p;
     OrganisationId := x; Archived := Archived p;
     ArchivedAt := ArchivedAt p; CreatedAt := CreatedAt p;
     UpdatedAt := UpdatedAt p |}.
Definition set_Archived (p : t) (x : bool) : t :=
  {| Id := Id p; Name := Name p; Description := Description p;
     OrganisationId := OrganisationId p; Archived := x;
     ArchivedAt := ArchivedAt p; CreatedAt := CreatedAt p;
     UpdatedAt := UpdatedAt p |}.
Definition set_ArchivedAt (p : t) (x : string) : t :=
  {| Id := Id p; Name := Name p; Description := Description p;
     OrganisationId := OrganisationId p; Archived := Archived p;
     ArchivedAt := x; CreatedAt := CreatedAt p;
     UpdatedAt := UpdatedAt p |}.
Definition set_CreatedAt (p : t) (x : string) : t :=
  {| Id := Id p; Name := Name p; Description := Description p;
     OrganisationId := OrganisationId p; Archived := Archived p;
     ArchivedAt := ArchivedAt p; CreatedAt := x;
     UpdatedAt := UpdatedAt p |}.
Definition set_UpdatedAt (p : t) (x : string) : t :=
  {| Id := Id p; Name := Name p; Description := Description p;
     OrganisationId := OrganisationId p; Archived := Archived p;
     ArchivedAt := ArchivedAt p; CreatedAt := CreatedAt p;
     UpdatedAt := x |}.

Definition field `{GoLib} (key : string) (v : json) (p : t) : result t :=
  if key_is key "id" then
    result_map (set_Id p) (decode_string "Project.id" v (Id p))
  else if key_is key "name" then
    result_map (set_Name p) (decode_string "Project.name" v (Name p))
  else if key_is key "description" then
    result_map (set_Description p)
      (decode_string_ptr "Project.description" v (Description p))
  else if key_is key "organisation_id" then
    result_map (set_OrganisationId p)
      (decode_string "Project.organisation_id" v (OrganisationId p))
  else if key_is key "archived" then
    result_map (set_Archived p)
      (decode_bool "Project.archived" v (Archived p))
  else if key_is key "archived_at" then
    result_map (set_ArchivedAt p)
      (decode_string "Project.archived_at" v (ArchivedAt p))
  else if key_is key "created_at" then
    result_map (set_CreatedAt p)
      (decode_string "Project.created_at" v (CreatedAt p))
  else if key_is key "updated_at" then
    result_map (set_UpdatedAt p)
      (decode_string "Project.updated_at" v (UpdatedAt p))
  else Ok p.

Definition decode `{GoLib} (v : json) : result t :=
  decode_struct "Project" field v zero.

(** The fields in the order of the struct; a nil description is left out,
    a description that points to the empty string is not. *)
Definition marshal (p : t) : json :=
  JObj ([("id", JStr (Id p)); ("name", JStr (Name p))]
        ++ match Description p with
           | Some d => [("description", JStr d)]
           | None => []
           end
        ++ [("organisation_id", JStr (OrganisationId p));
            ("archived", JBool (Archived p));
            ("archived_at", JStr (ArchivedAt p));
            ("created_at", JStr (CreatedAt p));
            ("updated_at", JStr (UpdatedAt p))]).
End ServerProject.

(** [ProjectMember] of the server: the record it stores. *)
Module ServerProjectMember.
Record t := {
  Id : string;
  ProjectId : string;
  UserId : string;
  EMail : string;
  DisplayName : string;
  CreatedAt : string;
  UpdatedAt : string
}.

Definition zero : t :=
  {| Id := ""; ProjectId := ""; UserId := ""; EMail := ""; DisplayName := "";
     CreatedAt := ""; UpdatedAt := "" |}.

Definition set_Id (m : t) (x : string) : t :=
  {| Id := x; ProjectId := ProjectId m; UserId := UserId m; EMail := EMail m;
     DisplayName := DisplayName m; CreatedAt := CreatedAt m;
     UpdatedAt := UpdatedAt m |}.
Definition set_ProjectId (m : t) (x : string) : t :=
  {| Id := Id m; ProjectId := x; UserId := UserId m; EMail := EMail m;
     DisplayName := DisplayName m; CreatedAt := CreatedAt m;
     UpdatedAt := UpdatedAt m |}.
Definition set_UserId (m : t) (x : string) : t :=
  {| Id := Id m; ProjectId := ProjectId m; UserId := x; EMail := EMail m;
     DisplayName := DisplayName m; CreatedAt := CreatedAt m;
     UpdatedAt := UpdatedAt m |}.
Definition set_EMail (m : t) (x : string) : t :=
  {| Id := Id m; ProjectId := ProjectId m; UserId := UserId m; EMail := x;
     DisplayName := DisplayName m; CreatedAt := CreatedAt m;
     UpdatedAt := UpdatedAt m |}.
Definition set_DisplayName (m : t) (x : string) : t :=
  {| Id := Id m; ProjectId := ProjectId m; UserId := UserId m; EMail := EMail m;
     DisplayName := x; CreatedAt := CreatedAt m; UpdatedAt := UpdatedAt m |}.
Definition set_CreatedAt (m : t) (x : string) : t :=
  {| Id := Id m; ProjectId := ProjectId m; UserId := UserId m; EMail := EMail m;
     DisplayName := DisplayName m; CreatedAt := x; UpdatedAt := UpdatedAt m |}.
Definition set_UpdatedAt (m : t) (x : string) : t :=
  {| Id := Id m; ProjectId := ProjectId m; UserId := UserId m; EMail := EMail m;
     DisplayName := DisplayName m; CreatedAt := CreatedAt m; UpdatedAt := x |}.

Definition field `{GoLib} (key : string) (v : json) (m : t) : result t :=
  if key_is key "id" then
    result_map (set_Id m) (decode_string "ProjectMember.id" v (Id m))
  else if key_is key "project_id" then
    result_map (set_ProjectId m)
      (decode_string "ProjectMember.project_id" v (ProjectId m))
  else if key_is key "user_id" then
    result_map (set_UserId m)
      (decode_string "ProjectMember.user_id" v (UserId m))
  else if key_is key "email" then
    result_map (set_EMail m) (decode_string "ProjectMember.email" v (EMail m))
  else if key_is key "display_name" then
    result_map (set_DisplayName m)
      (decode_string "ProjectMember.display_name" v (DisplayName m))
  else if key_is key "created_at" then
    result_map (set_CreatedAt m)
      (decode_string "ProjectMember.created_at" v (CreatedAt m))
  else if key_is key "updated_at" then
    result_map (set_UpdatedAt m)
      (decode_string "ProjectMember.updated_at" v (UpdatedAt m))
  else Ok m.

Definition decode `{GoLib} (v : json) : result t :=
  decode_struct "ProjectMember" field v zero.
End ServerProjectMember.

(** [ProjectMemberResponse], with its [links] and [user] objects: the
    answer built from a stored member. *)
Definition ProjectMemberResponse_marshal (m : ServerProjectMember.t) : json :=
  JObj [("id", JStr (ServerProjectMember.Id m));
        ("project_id", JStr (ServerProjectMember.ProjectId m));
        ("user_id", JStr (ServerProjectMember.UserId m));
        ("created_at", JStr (ServerProjectMember.CreatedAt m));
        ("updated_at", JStr (ServerProjectMember.UpdatedAt m));
        ("links",
         JObj [("project",
                JStr ("/api/v1/projects/" +:+ ServerProjectMember.ProjectId m))]);
        ("user",
         JObj [("id", JStr (ServerProjectMember.UserId m));
               ("email", JStr (ServerProjectMember.EMail m));
               ("display_name", JStr (ServerProjectMember.DisplayName m))])].

(** The global variables of the server. *)
Module Server.
Record t := {
  orgId : string;
  projects : gmap string ServerProject.t;
  projectMembers : gmap string ServerProjectMember.t
}.
End Server.

(** What a handler writes: a JSON document and a newline
    ([Encoder.Encode]), a line of text ([http.Error]), or nothing. *)
Inductive content :=
  | JsonLine (doc : json)
  | TextLine (msg : string)
  | NoBody.

Module Answer.
Record t := { status : Z; body : content }.
End Answer.

Definition http_Error (msg : string) (code : Z) : Answer.t :=
  {| Answer.status := code; Answer.body := TextLine msg |}.

(** [mux.Vars(r)[name]]: the empty string for a variable the route has
    not. *)
Definition var (vars : gmap string string) (name : string) : string :=
  match vars !! name with
  | Some value => value
  | None => ""
  end.

(** [json.NewDecoder(r.Body).Decode(&p)]: the body of the request is a
    document, or the error of the decoder on bytes that are none. *)
Definition Decoder_Decode {T} (decode : json -> result T) (body : result json)
  : result T :=
  match body with
  | Err e => Err e
  | Ok doc => decode doc
  end.

Section Handlers.
Context `{GoLib}.

(** [uuid] is the value of [faker.UUIDHyphenated()], [now1] and [now2] are
    the two readings of the clock. *)
Definition handlePostProject (s : Server.t) (uuid now1 now2 : string)
    (body : result json) : Server.t * Answer.t :=
  match Decoder_Decode ServerProject.decode body with
  | Err err => (s, http_Error err 400)
  | Ok p =>
      let p := ServerProject.set_Id p uuid in
      let p := ServerProject.set_OrganisationId p (Server.orgId s) in
      let p := ServerProject.set_CreatedAt p now1 in
      let p := ServerProject.set_UpdatedAt p now2 in
      ({| Server.orgId := Server.orgId s;
          Server.projects := <[ServerProject.Id p := p]> (Server.projects s);
          Server.projectMembers := Server.projectMembers s |},
       {| Answer.status := 201;
          Answer.body := JsonLine (ServerProject.marshal p) |})
  end.

Definition handleGetProject (s : Server.t) (vars : gmap string string)
  : Server.t * Answer.t :=
  let id := var vars "id" in
  match Server.projects s !! id with
  | None => (s, http_Error "Project not found" 404)
  | Some p =>
      (s, {| Answer.status := 200;
             Answer.body := JsonLine (ServerProject.marshal p) |})
  end.

(** [uuid] and [user_uuid] are values of [faker.UUIDHyphenated()], [email]
    of [faker.Email()], [name] of [faker.Name()]. *)
Definition handlePostProjectMember (s : Server.t) (vars : gmap string string)
    (uuid user_uuid email name now1 now2 : string) (body : result json)
  : Server.t * Answer.t :=
  let project_id := var vars "project_id" in
  match Server.projects s !! project_id with
  | None => (s, http_Error "Project not found" 404)
  | Some _ =>
    match Decoder_Decode ServerProjectMember.decode body with
    | Err err => (s, http_Error err 400)
    | Ok p =>
        let p := ServerProjectMember.set_Id p uuid in
        let p := if String.eqb (ServerProjectMember.UserId p) ""
                 then ServerProjectMember.set_UserId p user_uuid else p in
        let p := if String.eqb (ServerProjectMember.EMail p) ""
                 then ServerProjectMember.set_EMail p email else p in
        let p := ServerProjectMember.set_DisplayName p name in
        let p := ServerProjectMember.set_ProjectId p project_id in
        let p := ServerProjectMember.set_CreatedAt p now1 in
        let p := ServerProjectMember.set_UpdatedAt p now2 in
        ({| Server.orgId := Server.orgId s;
            Server.projects := Server.projects s;
            Server.projectMembers :=
              <[ServerProjectMember.Id p := p]> (Server.projectMembers s) |},
         {| Answer.status := 201;
            Answer.body := JsonLine (ProjectMemberResponse_marshal p) |})
    end
  end.

Definition handleGetProjectMember (s : Server.t) (vars : gmap string string)
  : Server.t * Answer.t :=
  let id := var vars "id" in
  let project_id := var vars "project_id" in
  match Server.projects s !! project_id with
  | None => (s, http_Error "Project not found" 404)
  | Some _ =>
    match Server.projectMembers s !! id with
    | None => (s, http_Error "Project Member not found" 404)
    | Some m =>
        (s, {| Answer.status := 200;
               Answer.body := JsonLine (ProjectMemberResponse_marshal m) |})
    end
  end.

Definition handleDeleteProjectMember (s : Server.t) (vars : gmap string string)
  : Server.t * Answer.t :=
  let id := var vars "id" in
  let project_id := var vars "project_id" in
  match Server.projects s !! project_id with
  | None => (s, http_Error "Project not found" 404)
  | Some _ =>
    match Server.projectMembers s !! id with
    | None => (s, http_Error "Project Member not found" 404)
    | Some _ =>
        ({| Server.orgId := Server.orgId s;
            Server.projects := Server.projects s;
            Server.projectMembers := delete id (Server.projectMembers s) |},
         {| Answer.status := 204; Answer.body := NoBody |})
    end
  end.
End Handlers.

(** The state [main] starts the server with: the one project [test1]. *)
Definition Server_main (orgId : string) : Server.t :=
  let p :=
    {| ServerProject.Id := "0faaecfb-d154-4f8f-bdc8-fccd630ddb39";
       ServerProject.Name := "test1";
       ServerProject.Description := None;
       ServerProject.OrganisationId := orgId;
       ServerProject.Archived := false;
       ServerProject.ArchivedAt := "";
       ServerProject.CreatedAt := "2024-01-01T00:00:00Z";
       ServerProject.UpdatedAt := "2024-01-01T00:00:00Z" |} in
  {| Server.orgId := orgId;
     Server.projects := <[ServerProject.Id p := p]> ∅;
     Server.projectMembers := ∅ |}.

(** ** The server of the integration example *)

(** The server of the integration example keeps projects only, and numbers
    them: [len(projects)+1] printed with [%d]. *)
Section IntegrationHandlers.
Context `{GoLib}.

Definition Integration_handlePostProject
    (projects : gmap string ServerProject.t) (body : result json)
  : gmap string ServerProject.t * Answer.t :=
  match Decoder_Decode ServerProject.decode body with
  | Err err => (projects, http_Error err 400)
  | Ok p =>
      let p := ServerProject.set_Id p
                 ("proj-" +:+ fmt_d (Z.of_nat (size projects) + 1)) in
      let p := ServerProject.set_OrganisationId p "org-123456" in
      let p := ServerProject.set_CreatedAt p "2024-01-01T00:00:00Z" in
      let p := ServerProject.set_UpdatedAt p "2024-01-01T00:00:00Z" in
      (<[ServerProject.Id p := p]> projects,
       {| Answer.status := 201;
          Answer.body := JsonLine (ServerProject.marshal p) |})
  end.

Definition Integration_handleGetProject
    (projects : gmap string ServerProject.t) (vars : gmap string string)
  : gmap string ServerProject.t * Answer.t :=
  let id := var vars "id" in
  match projects !! id with
  | None => (projects, http_Error "Project not found" 404)
  | Some p =>
      (projects, {| Answer.status := 200;
                    Answer.body := JsonLine (ServerProject.marshal p) |})
  end.
End IntegrationHandlers.

(** The projects [main] starts that server with. *)
Definition Integration_main : gmap string ServerProject.t :=
  let p :=
    {| ServerProject.Id := "0faaecfb-d154-4f8f-bdc8-fccd630ddb39";
       ServerProject.Name := "test1";
       ServerProject.Description := None;
       ServerProject.OrganisationId := "org-123456";
       ServerProject.Archived := false;
       ServerProject.ArchivedAt := "";
       ServerProject.CreatedAt := "2024-01-01T00:00:00Z";
       ServerProject.UpdatedAt := "2024-01-01T00:00:00Z" |} in
  <[ServerProject.Id p := p]> ∅.

(** ** Data for the examples *)

Definition upper_ascii (c : ascii) : ascii :=
  let n := nat_of_ascii c in
  if (97 <=? n)%nat && (n <=? 122)%nat then ascii_of_nat (n - 32) else c.

Fixpoint upper (s : string) : string :=
  match s with
  | EmptyString => EmptyString
  | String c s' => String (upper_ascii c) (upper s')
  end.

(** The libraries as far as the examples need them: the URLs of the examples
    are plain and parse, their JSON keys are ASCII. *)
Definition example_lib : GoLib :=
  {| url_Parse_error := fun _ => None;
     UnmarshalTypeError := fun _ path =>
       "json: cannot unmarshal value into Go struct field " +:+ path;
     foldName := upper |}.

Definition quoted (s : string) : string :=
  String "034"%char (s +:+ String "034"%char EmptyString).

Fixpoint join (sep : string) (l : list string) : string :=
  match l with
  | [] => ""
  | [x] => x
  | x :: rest => x +:+ sep +:+ join sep rest
  end.

(** The compact text of a document whose strings need no escaping. *)
Fixpoint json_text (j : json) : string :=
  match j with
  | JNull => "null"
  | JBool true => "true"
  | JBool false => "false"
  | JNum literal => literal
  | JStr s => quoted s
  | JArr elems => "[" +:+ join "," (map json_text elems) +:+ "]"
  | JObj members =>
      "{" +:+ join "," (map (fun kv => quoted (fst kv) +:+ ":" +:+ json_text (snd kv))
                          members) +:+ "}"
  end.

(** The bytes of a document, and a response whose body they are. *)
Definition json_bytes (doc : json) : Bytes.t :=
  {| Bytes.raw := json_text doc; Bytes.parsed := Ok doc |}.

Definition json_response (status : Z) (doc : json) : Response.t :=
  {| Response.StatusCode := status;
     Response.Body := Readable (json_bytes doc) |}.

(** The bytes written by [http.Error], a line of plain text, which is not
    JSON, and a response whose body they are. *)
Definition text_bytes (msg syntax_error : string) : Bytes.t :=
  {| Bytes.raw := msg +:+ String "010"%char EmptyString;
     Bytes.parsed := Err syntax_error |}.

Definition text_response (status : Z) (msg syntax_error : string) : Response.t :=
  {| Response.StatusCode := status;
     Response.Body := Readable (text_bytes msg syntax_error) |}.

Definition world_answering (resp : Response.t) : World :=
  {| remote := fun _ _ => Ok resp; sent := [] |}.

Definition t0 : string := "2024-01-01T00:00:00Z".

(** The remote system of the scenario: it assigns the identifier [p1], the
    organisation [org1] and the timestamps [t0], and omits the description
    it was not given. *)
Definition p1_doc : json :=
  JObj [("id", JStr "p1"); ("name", JStr "Test Project");
        ("organisation_id", JStr "org1"); ("archived", JBool false);
        ("archived_at", JStr ""); ("created_at", JStr t0);
        ("updated_at", JStr t0)].

Definition created_p1 : Response.t := json_response 201 p1_doc.

Definition example_project_resource : ProjectResource.t :=
  {| ProjectResource.client := DefaultClient;
     ProjectResource.endpoint := "https://api.switchcloud.com" |}.

Definition example_member_resource : ProjectMemberResource.t :=
  {| ProjectMemberResource.client := DefaultClient;
     ProjectMemberResource.endpoint := "https://api.switchcloud.com" |}.

Definition test_project_plan : ProjectResourceModel.t :=
  {| ProjectResourceModel.Id := Unknown;
     ProjectResourceModel.Name := Known "Test Project";
     ProjectResourceModel.Description := Unknown;
     ProjectResourceModel.OrganisationId := Unknown;
     ProjectResourceModel.Archived := Unknown;
     ProjectResourceModel.ArchivedAt := Unknown;
     ProjectResourceModel.CreatedAt := Unknown;
     ProjectResourceModel.UpdatedAt := Unknown |}.

(** A remote system that stores the name in lower case. *)
Definition created_lowercase : Response.t :=
  json_response 201
    (JObj [("id", JStr "p1"); ("name", JStr "test project");
           ("organisation_id", JStr "org1"); ("archived", JBool false);
           ("archived_at", JStr ""); ("created_at", JStr t0);
           ("updated_at", JStr t0)]).

Definition p1_state : ProjectResourceModel.t :=
  {| ProjectResourceModel.Id := Known "p1";
     ProjectResourceModel.Name := Known "Test Project";
     ProjectResourceModel.Description := Known "";
     ProjectResourceModel.OrganisationId := Known "org1";
     ProjectResourceModel.Archived := Known false;
     ProjectResourceModel.ArchivedAt := Known "";
     ProjectResourceModel.CreatedAt := Known t0;
     ProjectResourceModel.UpdatedAt := Known t0 |}.

Definition member_state : ProjectMemberResourceModel.t :=
  {| ProjectMemberResourceModel.Id := Known "mem-9";
     ProjectMemberResourceModel.ProjectId := Known "proj-1";
     ProjectMemberResourceModel.UserId := Known "user-12345";
     ProjectMemberResourceModel.EMail := Known "user@example.com";
     ProjectMemberResourceModel.DisplayName := Known "Test User" |}.

Definition not_json : string :=
  "invalid character 'P' looking for beginning of value".

Definition project_not_found : Response.t :=
  text_response 404 "Project not found" not_json.

Definition member_not_found : Response.t :=
  text_response 404 "Project Member not found" not_json.

Definition overloaded : Response.t :=
  text_response 503 "Please retry later" not_json.

Definition member_url_9 : string :=
  "https://api.switchcloud.com/api/v1/projects/proj-1/members/mem-9".

(** The answer to a successful delete: 204 and no body. *)
Definition no_bytes : Bytes.t :=
  {| Bytes.raw := ""; Bytes.parsed := Err "unexpected end of JSON input" |}.

Definition deleted : Response.t :=
  {| Response.StatusCode := 204; Response.Body := Readable no_bytes |}.

(** Three projects, two of them named alike. *)
Definition project_doc (id name : string) : json :=
  JObj [("id", JStr id); ("name", JStr name);
        ("organisation_id", JStr "org1"); ("archived", JBool false);
        ("archived_at", JStr ""); ("created_at", JStr t0);
        ("updated_at", JStr t0)].

Definition project_of (id name : string) : Project.t :=
  {| Project.Id := id; Project.Name := name; Project.Description := "";
     Project.OrganisationId := "org1"; Project.Archived := false;
     Project.ArchivedAt := ""; Project.CreatedAt := t0;
     Project.UpdatedAt := t0 |}.

Definition three_projects_doc : json :=
  JArr [project_doc "p0" "other"; project_doc "p1" "test1";
        project_doc "p2" "test1"].

Definition three_projects : Response.t := json_response 200 three_projects_doc.

Definition example_data_source : ProjectDataSource.t :=
  {| ProjectDataSource.client := DefaultClient;
     ProjectDataSource.endpoint := "https://api.switchcloud.com/" |}.

(** The configuration asks for [test1] and, against the schema, carries an
    [id] that no project has. *)
Definition test1_config : ProjectDataSourceModel.t :=
  {| ProjectDataSourceModel.Id := Known "p2";
     ProjectDataSourceModel.Name := Known "test1";
     ProjectDataSourceModel.Description := Null;
     ProjectDataSourceModel.OrganisationId := Null;
     ProjectDataSourceModel.Archived := Null;
     ProjectDataSourceModel.ArchivedAt := Null;
     ProjectDataSourceModel.CreatedAt := Null;
     ProjectDataSourceModel.UpdatedAt := Null |}.

Definition plan_with_user_id : ProjectMemberResourceModel.t :=
  {| ProjectMemberResourceModel.Id := Unknown;
     ProjectMemberResourceModel.ProjectId := Known "proj-1";
     ProjectMemberResourceModel.UserId := Known "user-12345";
     ProjectMemberResourceModel.EMail := Unknown;
     ProjectMemberResourceModel.DisplayName := Unknown |}.

Definition plan_with_email : ProjectMemberResourceModel.t :=
  {| ProjectMemberResourceModel.Id := Unknown;
     ProjectMemberResourceModel.ProjectId := Known "proj-1";
     ProjectMemberResourceModel.UserId := Unknown;
     ProjectMemberResourceModel.EMail := Known "user@example.com";
     ProjectMemberResourceModel.DisplayName := Unknown |}.

(** A plan whose [user_id] is the empty string. *)
Definition plan_with_empty_user_id : ProjectMemberResourceModel.t :=
  {| ProjectMemberResourceModel.Id := Unknown;
     ProjectMemberResourceModel.ProjectId := Known "proj-1";
     ProjectMemberResourceModel.UserId := Known "";
     ProjectMemberResourceModel.EMail := Unknown;
     ProjectMemberResourceModel.DisplayName := Unknown |}.

(** The desired object with [email] supplied and [user_id] null. *)
Definition desired_with_email : ProjectMemberResourceModel.t :=
  {| ProjectMemberResourceModel.Id := Unknown;
     ProjectMemberResourceModel.ProjectId := Known "proj-1";
     ProjectMemberResourceModel.UserId := Null;
     ProjectMemberResourceModel.EMail := Known "user@example.com";
     ProjectMemberResourceModel.DisplayName := Unknown |}.

Definition members_url : string :=
  "https://api.switchcloud.com/api/v1/projects/proj-1/members".

(** No variable of the environment is set. *)
Definition no_env : string -> string := fun _ => "".

(** A provider configuration with an API key and the default endpoint. *)
Definition keyed_config : SwitchcloudProviderModel.t :=
  {| SwitchcloudProviderModel.Endpoint := Null;
     SwitchcloudProviderModel.ApiKey := Known "test-api-key" |}.


Definition member_identity : ProjectMemberResourceModel.t :=
  {| ProjectMemberResourceModel.Id := Known "mem-9";
     ProjectMemberResourceModel.ProjectId := Known "proj-1";
     ProjectMemberResourceModel.UserId := Null;
     ProjectMemberResourceModel.EMail := Null;
     ProjectMemberResourceModel.DisplayName := Null |}.

(** The test server as [main] starts it, for the organisation [org1], and
    the identifier of its one project. *)
Definition server0 : Server.t := Server_main "org1".

Definition test1_id : string := "0faaecfb-d154-4f8f-bdc8-fccd630ddb39".

(** ** Vocabulary of the statements *)

(** An attribute of a configuration is supplied when it is not null. *)
Definition supplied {A} (v : Value A) : bool := negb (IsNull v).

(** The API key the provider ends up with: the environment first, then the
    configuration. *)
Definition configured_key (Getenv : string -> string)
    (config : SwitchcloudProviderModel.t) : option string :=
  if String.eqb (Getenv "SWITCHCLOUD_API_KEY") "" then
    match SwitchcloudProviderModel.ApiKey config with
    | Null => None
    | v => Some (ValueString v)
    end
  else Some (Getenv "SWITCHCLOUD_API_KEY").

(** The world after one more request has reached the remote system. *)
Definition after (w : World) (req : Request.t) : World :=
  {| remote := remote w; sent := sent w ++ [req] |}.

Definition unsupported (what : string) : Diagnostic :=
  NewErrorDiagnostic "API Error"
    ("Unable to update " +:+ what +:+ ", method is not implemented on server").

Definition GET (url : string) : Request.t :=
  {| Request.Method := "GET"; Request.URL := url;
     Request.Header := <["Accept" := ["application/json"]]> ∅;
     Request.Body := None |}.

Definition DELETE (url : string) : Request.t :=
  {| Request.Method := "DELETE"; Request.URL := url;
     Request.Header := <["Accept" := ["application/json"]]> ∅;
     Request.Body := None |}.

Definition POST (url : string) (body : json) : Request.t :=
  {| Request.Method := "POST"; Request.URL := url;
     Request.Header :=
       <["Accept" := ["application/json"]]>
         (<["Content-Type" := ["application/json"]]> ∅);
     Request.Body := Some body |}.

(** The diagnostic of a status the code does not accept: the status code
    and the raw body. *)
Definition rejected (status : Z) (body : Bytes.t) : Diagnostic :=
  NewErrorDiagnostic "Client Error"
    ("API returned status " +:+ fmt_d status +:+ ": " +:+ Bytes.raw body).

Definition project_url (endpoint id : string) : string :=
  strings_TrimSuffix endpoint "/" +:+ "/api/v1/projects/" +:+ id.

Definition member_url (endpoint project_id id : string) : string :=
  strings_TrimSuffix endpoint "/" +:+ "/api/v1/projects/" +:+ project_id
  +:+ "/members/" +:+ id.

(** [sep] does not occur in [s]. *)
Fixpoint no_sep (sep : ascii) (s : string) : bool :=
  match s with
  | EmptyString => true
  | String c s' => negb (Ascii.eqb c sep) && no_sep sep s'
  end.

Definition malformed (ID : string) : Diagnostic :=
  NewErrorDiagnostic "Unexpected Import Identifier"
    ("Expected import identifier with format: project_id/member_id. Got: "
     +:+ ID).

(** The identifier is made of exactly two segments, empty or not. *)
Definition two_segments (ID : string) : Prop :=
  exists a b, no_sep "/" a = true /\ no_sep "/" b = true
              /\ ID = a +:+ "/" +:+ b.

(** The request as the client of the provider sends it: with the bearer
    header when a key is configured. *)
Definition authorize (key : option string) (req : Request.t) : Request.t :=
  match key with
  | Some k => Header_Set req "Authorization" ("Bearer " +:+ k)
  | None => req
  end.

(** Between [w] and [w'] nothing, or exactly one request, reached the remote
    system. *)
Definition one_exchange (key : option string) (w w' : World) : Prop :=
  w' = w \/ exists req, w' = after w (authorize key req).

(** From [w] to [w'] the requests [new] were added to the log, and nothing
    else changed. *)
Definition exchanged (w w' : World) (new : list Request.t) : Prop :=
  remote w' = remote w /\ sent w' = sent w ++ new.

(** The request carries the bearer header of the key [k]. *)
Definition bearer (k : string) (req : Request.t) : Prop :=
  Request.Header req !! "Authorization" = Some ["Bearer " +:+ k].

Definition is_known {A} (v : Value A) : bool :=
  match v with Known _ => true | _ => false end.

(** Every attribute of the model is known. *)
Definition project_all_known (m : ProjectResourceModel.t) : bool :=
  is_known (ProjectResourceModel.Id m)
  && is_known (ProjectResourceModel.Name m)
  && is_known (ProjectResourceModel.Description m)
  && is_known (ProjectResourceModel.OrganisationId m)
  && is_known (ProjectResourceModel.Archived m)
  && is_known (ProjectResourceModel.ArchivedAt m)
  && is_known (ProjectResourceModel.CreatedAt m)
  && is_known (ProjectResourceModel.UpdatedAt m).

Definition member_all_known (m : ProjectMemberResourceModel.t) : bool :=
  is_known (ProjectMemberResourceModel.Id m)
  && is_known (ProjectMemberResourceModel.ProjectId m)
  && is_known (ProjectMemberResourceModel.UserId m)
  && is_known (ProjectMemberResourceModel.EMail m)
  && is_known (ProjectMemberResourceModel.DisplayName m).

Definition data_source_all_known (m : ProjectDataSourceModel.t) : bool :=
  is_known (ProjectDataSourceModel.Id m)
  && is_known (ProjectDataSourceModel.Name m)
  && is_known (ProjectDataSourceModel.Description m)
  && is_known (ProjectDataSourceModel.OrganisationId m)
  && is_known (ProjectDataSourceModel.Archived m)
  && is_known (ProjectDataSourceModel.ArchivedAt m)
  && is_known (ProjectDataSourceModel.CreatedAt m)
  && is_known (ProjectDataSourceModel.UpdatedAt m).

Definition client_error (detail : string) : Diagnostic :=
  NewErrorDiagnostic "Client Error" detail.

(** The roles of an attribute are consistent: required excludes optional
    and computed, and some role is set. *)
Definition roles_ok (a : Attribute.t) : bool :=
  (Attribute.Required a || Attribute.Optional a || Attribute.Computed a)
  && negb (Attribute.Required a
           && (Attribute.Optional a || Attribute.Computed a)).

Definition requires_replace (a : Attribute.t) : bool :=
  existsb (fun m => match m with RequiresReplace => true | _ => false end)
    (Attribute.PlanModifiers a).

(** An attribute of a resource: its roles are consistent, and if the user
    can set it, changing it requires replacement. *)
Definition resource_attribute_ok (a : Attribute.t) : bool :=
  roles_ok a
  && (negb (Attribute.Required a || Attribute.Optional a) || requires_replace a).

(** The store of the test server is consistent: projects and members are
    stored under their own identifiers, projects belong to the organisation
    of the server, and the project of a member exists. *)
Definition Server_ok (s : Server.t) : Prop :=
  (forall k p, Server.projects s !! k = Some p ->
     ServerProject.Id p = k
     /\ ServerProject.OrganisationId p = Server.orgId s)
  /\ (forall k m, Server.projectMembers s !! k = Some m ->
        ServerProjectMember.Id m = k
        /\ is_Some (Server.projects s !! ServerProjectMember.ProjectId m)).

(** The keys of the documents that the provider and the test server
    exchange. *)
Definition json_tags : list string :=
  ["id"; "name"; "description"; "organisation_id"; "archived"; "archived_at";
   "created_at"; "updated_at"; "project_id"; "user_id"; "email";
   "display_name"; "user"; "links"; "project"].

(** On these keys, which are ASCII, the folding of [encoding/json] is the
    folding of ASCII letters. *)
Definition folds_like_ascii `{GoLib} : Prop :=
  Forall (fun t => foldName t = upper t) json_tags.

(** Every identifier of the map is the one [main] stores or [proj-]
    followed by a number that is at most the number of projects. *)
Definition Numbered (projects : gmap string ServerProject.t) : Prop :=
  forall k, is_Some (projects !! k) ->
    k = "0faaecfb-d154-4f8f-bdc8-fccd630ddb39"
    \/ exists n : nat, (n <= size projects)%nat
                       /\ k = "proj-" +:+ fmt_d (Z.of_nat n).

(** ** Tactics *)

(** Running a method up to the answer of the remote system. *)
Ltac to_exchange Hurl HDo Hbody :=
  cbn [new_resp diags HasError existsb];
  unfold http_NewRequestWithContext;
  first [rewrite Hurl | unfold project_url, member_url in Hurl; rewrite Hurl];
  unfold mbind, M_bind, bind;
  first [ change (Header_Set _ "Accept" "application/json") with (GET _)
        | idtac ];
  first [rewrite HDo | unfold GET, DELETE, POST, project_url, member_url in HDo;
                       unfold Header_Set; cbn [Request.Method Request.URL Request.Header Request.Body];
                       rewrite HDo];
  rewrite Hbody.

(** Every branch of a method that follows the exchange returns the world
    as the exchange left it. *)
Ltac branches :=
  repeat match goal with
         | |- context [match ?x with _ => _ end] => destruct x eqn:?
         end.

Ltac with_default_client Hurl :=
  cbn [new_resp diags HasError existsb];
  unfold http_NewRequestWithContext;
  rewrite Hurl;
  unfold mbind, M_bind, bind, Client_Do;
  cbn [Client.Transport DefaultClient RoundTrip DefaultTransport].

(** A method that talks to the remote system returns the world it was given
    or the world after its one exchange. *)
Ltac one_exchange_tac HDo :=
  unfold one_exchange,
         ProjectResource.Create, ProjectResource.Read,
         ProjectMemberResource.Create, ProjectMemberResource.Read,
         ProjectMemberResource.Delete, ProjectMemberResource.ImportState,
         ProjectDataSource.Read;
  cbn [ProjectResource.client ProjectMemberResource.client
       ProjectDataSource.client];
  try (destruct (HasError _); [left; reflexivity|]);
  unfold http_NewRequestWithContext;
  destruct (url_Parse_error _); [left; reflexivity|];
  unfold mbind, M_bind, bind;
  rewrite HDo;
  branches; right; eexists; reflexivity.

Ltac outcomes_leaf :=
  repeat match goal with
         | |- _ /\ _ => split
         | |- exists _, _ => eexists
         end;
  reflexivity.

(** The outcome of a method, branch by branch. *)
Ltac outcomes :=
  cbn [new_resp diags HasError existsb];
  unfold http_NewRequestWithContext, mbind, M_bind, bind;
  branches;
  cbn [fst snd diags State AddError State_Set State_RemoveResource mret M_ret
       ret Diagnostics_AddError new_resp];
  repeat match goal with
         | |- _ /\ _ => split
         | |- ?x = ?x => reflexivity
         | |- exists _, _ => eexists
         | |- _ \/ _ =>
             first [ left; solve [outcomes_leaf] | right ]
         end;
  try outcomes_leaf.

(** Decoding a document whose keys are known. *)
Ltac use_folding Hfold :=
  unfold folds_like_ascii, json_tags in Hfold;
  repeat match type of Hfold with
         | Forall _ (_ :: _) =>
             let E := fresh "Efold" in
             apply Forall_cons_1 in Hfold as [E Hfold]; cbn beta in E
         end;
  clear Hfold.

Ltac fold_keys :=
  unfold key_is;
  repeat match goal with
         | E : foldName ?t = _ |- context [foldName ?t] => rewrite !E
         end.

Ltac decode_now :=
  repeat (progress (cbn;
                    unfold ServerProject.field, Project.field,
                           ServerProjectMember.field, ProjectMember.field,
                           ProjectMemberUser.field, decode_struct;
                    fold_keys)).

(** ** Basic facts *)

Lemma AddError_new {Model} (st : option Model) (summary detail : string) :
  AddError (new_resp st) summary detail =
  {| diags := [NewErrorDiagnostic summary detail]; State := st |}.
Proof. reflexivity. Qed.

Lemma DefaultTransport_RoundTrip (req : Request.t) (w : World) :
  RoundTrip DefaultTransport req w = (remote w (sent w) req, after w req).
Proof. reflexivity. Qed.

(** ** Update *)

Lemma HasError_AddError (ds : Diagnostics) (summary detail : string) :
  HasError (Diagnostics_AddError ds summary detail) = true.
Proof.
  unfold Diagnostics_AddError, HasError.
  destruct (decide (NewErrorDiagnostic summary detail ∈ ds)) as [Hin|_].
  - apply existsb_exists. exists (NewErrorDiagnostic summary detail).
    split; [apply list_elem_of_In; exact Hin | reflexivity].
  - rewrite existsb_app. simpl. apply orb_true_r.
Qed.

(** C6. For the project kind and for the membership kind, whatever the prior
    and the desired object, Update reports the "method is not implemented on
    server" error, sends no request (the world it returns is the world it
    was given, remote system and log alike) and leaves the state of the
    response as it was.  Whatever diagnostics the response already held,
    the response it returns has an error. *)
Theorem Update_always_unsupported :
  forall (pr : ProjectResource.t) (mr : ProjectMemberResource.t)
         (pplan pstate : ProjectResourceModel.t)
         (mplan mstate : ProjectMemberResourceModel.t)
         (pst : option ProjectResourceModel.t)
         (mst : option ProjectMemberResourceModel.t)
         (presp : Resp ProjectResourceModel.t)
         (mresp : Resp ProjectMemberResourceModel.t) (w : World),
    ProjectResource.Update pr pplan pstate (new_resp pst) w =
      ({| diags := [unsupported "project"]; State := pst |}, w)
    /\ ProjectMemberResource.Update mr mplan mstate (new_resp mst) w =
      ({| diags := [unsupported "project member"]; State := mst |}, w)
    /\ (let res := ProjectResource.Update pr pplan pstate presp w in
        HasError (diags (fst res)) = true
        /\ State (fst res) = State presp /\ snd res = w)
    /\ (let res := ProjectMemberResource.Update mr mplan mstate mresp w in
        HasError (diags (fst res)) = true
        /\ State (fst res) = State mresp /\ snd res = w).
Proof.
  intros. repeat split; try reflexivity; apply HasError_AddError.
Qed.

(** ** Validation of a project member *)

(** C4. Validation of a membership configuration sends nothing and yields
    no diagnostic when exactly one of [user_id] and [email] is supplied, and
    exactly one "Configuration Error" when neither or both are. *)
Theorem ValidateConfig_exactly_one :
  forall (r : ProjectMemberResource.t) (config : ProjectMemberResourceModel.t)
         (w : World),
    let user_id := supplied (ProjectMemberResourceModel.UserId config) in
    let email := supplied (ProjectMemberResourceModel.EMail config) in
    ProjectMemberResource.ValidateConfig r config [] w =
      (if xorb user_id email then []
       else [NewErrorDiagnostic "Configuration Error"
               (if user_id
                then "Only one of 'user_id' or 'email' can be provided for a project member."
                else "Either 'user_id' or 'email' must be provided for a project member.")],
       w).
Proof.
  intros r config w.
  destruct config as [i p u e d].
  destruct u, e; reflexivity.
Qed.

(** ** The authenticated transport *)

(** C9. With an API key configured, a request given to the client of the
    provider reaches the remote system once, with its [Authorization]
    header set to [Bearer] and the key, and the answer of the remote system
    is returned as it is, whatever its status; without a key the request
    reaches the remote system once and unchanged.  The decorator itself
    hands the request, with the header set, to the transport it wraps, once,
    and returns what that transport returns. *)
Theorem authenticated_transport_adds_bearer :
  forall (Getenv : string -> string) (config : SwitchcloudProviderModel.t)
         (req : Request.t) (w : World),
    let client := ProviderData.client (SwitchcloudProvider.Configure Getenv config) in
    match configured_key Getenv config with
    | Some key =>
        let req' := Header_Set req "Authorization" ("Bearer " +:+ key) in
        Client_Do client req w = (remote w (sent w) req', after w req')
        /\ Request.Header req' !! "Authorization" = Some ["Bearer " +:+ key]
    | None =>
        Client_Do client req w = (remote w (sent w) req, after w req)
    end
    /\ forall (t : authenticatedTransport.t),
         authenticatedTransport.RoundTrip t req w =
         RoundTrip (authenticatedTransport.transport t)
           (Header_Set req "Authorization"
              ("Bearer " +:+ authenticatedTransport.apiKey t)) w.
Proof.
  intros Getenv config req w client. split.
  - unfold configured_key, client, SwitchcloudProvider.Configure.
    destruct (String.eqb (Getenv "SWITCHCLOUD_API_KEY") "") eqn:Henv; simpl.
    + destruct (SwitchcloudProviderModel.ApiKey config) eqn:Hkey; simpl.
      * reflexivity.
      * split; [reflexivity | apply lookup_insert_eq].
      * split; [reflexivity | apply lookup_insert_eq].
    + split; [reflexivity | apply lookup_insert_eq].
  - intros t. reflexivity.
Qed.

(** ** Read *)

(** C5. Read of a project and Read of a project member: when the remote
    system answers 404 the state is removed and no diagnostic is added;
    when it answers any other status outside 200..299 the state stays as it
    was and the one diagnostic added is an error that carries the status
    code and the raw body. *)
Theorem Read_absent_or_rejected `{GoLib} :
  forall (httpResp : Response.t) (body : Bytes.t),
    io_ReadAll (Response.Body httpResp) = Ok body ->
    let status := Response.StatusCode httpResp in
    (forall (r : ProjectResource.t) (state : ProjectResourceModel.t)
            (st : option ProjectResourceModel.t) (w w' : World),
        let url := project_url (ProjectResource.endpoint r)
                     (ValueString (ProjectResourceModel.Id state)) in
        url_Parse_error url = None ->
        Client_Do (ProjectResource.client r) (GET url) w = (Ok httpResp, w') ->
        (status = 404%Z ->
         ProjectResource.Read r state (new_resp st) w =
           ({| diags := []; State := None |}, w'))
        /\ (status <> 404%Z -> ~ (200 <= status < 300)%Z ->
            ProjectResource.Read r state (new_resp st) w =
              ({| diags := [rejected status body]; State := st |}, w')))
    /\ (forall (r : ProjectMemberResource.t) (state : ProjectMemberResourceModel.t)
               (st : option ProjectMemberResourceModel.t) (w w' : World),
        let url := member_url (ProjectMemberResource.endpoint r)
                     (ValueString (ProjectMemberResourceModel.ProjectId state))
                     (ValueString (ProjectMemberResourceModel.Id state)) in
        url_Parse_error url = None ->
        Client_Do (ProjectMemberResource.client r) (GET url) w = (Ok httpResp, w') ->
        (status = 404%Z ->
         ProjectMemberResource.Read r state (new_resp st) w =
           ({| diags := []; State := None |}, w'))
        /\ (status <> 404%Z -> ~ (200 <= status < 300)%Z ->
            ProjectMemberResource.Read r state (new_resp st) w =
              ({| diags := [rejected status body]; State := st |}, w'))).
Proof.
  intros httpResp body Hbody status. split.
  - intros r state st w w' url Hurl HDo. subst url.
    unfold ProjectResource.Read.
    to_exchange Hurl HDo Hbody.
    fold status. unfold StatusNotFound, StatusOK.
    split.
    + intros ->. reflexivity.
    + intros Hnf Hno.
      destruct (Z.eqb_spec status 404) as [|_]; [contradiction|].
      destruct (Z.eqb_spec status 200) as [->|_]; [lia|].
      reflexivity.
  - intros r state st w w' url Hurl HDo. subst url.
    unfold ProjectMemberResource.Read.
    to_exchange Hurl HDo Hbody.
    fold status. unfold StatusNotFound, StatusOK.
    split.
    + intros ->. reflexivity.
    + intros Hnf Hno.
      destruct (Z.eqb_spec status 404) as [|_]; [contradiction|].
      destruct (Z.eqb_spec status 200) as [->|_]; [lia|].
      reflexivity.
Qed.

(** ** Delete *)

(** C3, as the code has it.  Delete of a project member succeeds on the
    status 204 only: every other status, 404 included, adds the error
    diagnostic that carries the status code and the raw body.  The state of
    the response is not touched either way. *)
Theorem Delete_succeeds_on_no_content_only `{GoLib} :
  forall (r : ProjectMemberResource.t) (state : ProjectMemberResourceModel.t)
         (st : option ProjectMemberResourceModel.t) (w w' : World)
         (httpResp : Response.t) (body : Bytes.t),
    let url := member_url (ProjectMemberResource.endpoint r)
                 (ValueString (ProjectMemberResourceModel.ProjectId state))
                 (ValueString (ProjectMemberResourceModel.Id state)) in
    let status := Response.StatusCode httpResp in
    url_Parse_error url = None ->
    Client_Do (ProjectMemberResource.client r) (DELETE url) w = (Ok httpResp, w') ->
    io_ReadAll (Response.Body httpResp) = Ok body ->
    ProjectMemberResource.Delete r state (new_resp st) w =
      (if (status =? 204)%Z then new_resp st
       else {| diags := [rejected status body]; State := st |}, w')
    /\ (status = 404%Z ->
        HasError (diags (fst (ProjectMemberResource.Delete r state (new_resp st) w)))
        = true).
Proof.
  intros r state st w w' httpResp body url status Hurl HDo Hbody.
  subst url.
  assert (Hrun : ProjectMemberResource.Delete r state (new_resp st) w =
                 (if (status =? 204)%Z then new_resp st
                  else {| diags := [rejected status body]; State := st |}, w')).
  { unfold ProjectMemberResource.Delete.
    to_exchange Hurl HDo Hbody.
    fold status. unfold StatusNoContent.
    destruct (status =? 204)%Z; reflexivity. }
  split; [exact Hrun|].
  intros H404. rewrite Hrun, H404. reflexivity.
Qed.

(** ** The project data source *)

Lemma find_by_name_first (before : list Project.t) (p : Project.t)
    (rest : list Project.t) (name : string) :
  (forall q, q ∈ before -> Project.Name q <> name) ->
  Project.Name p = name ->
  ProjectDataSource.find_by_name (before ++ p :: rest) name = Some p.
Proof.
  intros Hbefore Hp. induction before as [|q before IH]; simpl.
  - apply String.eqb_eq in Hp. rewrite Hp. reflexivity.
  - destruct (String.eqb_spec (Project.Name q) name) as [Heq|_].
    + exfalso. apply (Hbefore q); [left | exact Heq].
    + apply IH. intros q' Hq'. apply Hbefore. right. exact Hq'.
Qed.

Lemma find_by_name_none (projects : list Project.t) (name : string) :
  (forall q, q ∈ projects -> Project.Name q <> name) ->
  ProjectDataSource.find_by_name projects name = None.
Proof.
  intros Hall. induction projects as [|q projects IH]; simpl; [reflexivity|].
  destruct (String.eqb_spec (Project.Name q) name) as [Heq|_].
  - exfalso. apply (Hall q); [left | exact Heq].
  - apply IH. intros q' Hq'. apply Hall. right. exact Hq'.
Qed.

(** C10. In the schema of the project data source [name] is the required
    argument and [id] is computed.  Read sends its one request, a GET, to
    the collection [/api/v1/projects] (with the default client, that request
    is all that reaches the remote system, whatever the outcome); from the
    list that comes back it takes the first project whose name is the [name]
    of the configuration, and when no project has that name it adds the
    error "Not Found" and stores nothing.  The configuration matters through
    [name] only: the [id] plays no part. *)
Theorem DataSource_Read_finds_by_name `{GoLib} :
  forall (d : ProjectDataSource.t) (config : ProjectDataSourceModel.t)
         (st : option ProjectDataSourceModel.t) (w : World),
    let url := strings_TrimSuffix (ProjectDataSource.endpoint d) "/"
               +:+ "/api/v1/projects" in
    let name := ValueString (ProjectDataSourceModel.Name config) in
    url_Parse_error url = None ->
    (ProjectDataSource.Schema !! "name" = Some (Attribute.required [])
     /\ ProjectDataSource.Schema !! "id" = Some (Attribute.computed []))
    /\ (ProjectDataSource.client d = DefaultClient ->
        snd (ProjectDataSource.Read d config (new_resp st) w)
        = after w (GET url))
    /\ (forall (w' : World) (httpResp : Response.t) (body : Bytes.t)
               (projects : list Project.t),
          Client_Do (ProjectDataSource.client d) (GET url) w = (Ok httpResp, w') ->
          io_ReadAll (Response.Body httpResp) = Ok body ->
          Response.StatusCode httpResp = 200%Z ->
          json_Unmarshal (decode_slice "[]Project" Project.decode) body
          = Ok projects ->
          (forall before p rest,
              projects = before ++ p :: rest ->
              (forall q, q ∈ before -> Project.Name q <> name) ->
              Project.Name p = name ->
              ProjectDataSource.Read d config (new_resp st) w =
                ({| diags := [];
                    State := Some
                      {| ProjectDataSourceModel.Id := Known (Project.Id p);
                         ProjectDataSourceModel.Name := Known (Project.Name p);
                         ProjectDataSourceModel.Description :=
                           Known (Project.Description p);
                         ProjectDataSourceModel.OrganisationId :=
                           Known (Project.OrganisationId p);
                         ProjectDataSourceModel.Archived :=
                           Known (Project.Archived p);
                         ProjectDataSourceModel.ArchivedAt :=
                           Known (Project.ArchivedAt p);
                         ProjectDataSourceModel.CreatedAt :=
                           Known (Project.CreatedAt p);
                         ProjectDataSourceModel.UpdatedAt :=
                           Known (Project.UpdatedAt p) |} |},
                 w'))
          /\ ((forall q, q ∈ projects -> Project.Name q <> name) ->
              ProjectDataSource.Read d config (new_resp st) w =
                ({| diags := [NewErrorDiagnostic "Not Found"
                                ("No project found with name: " +:+ name)];
                    State := st |}, w')))
    /\ (forall config' resp0 w0,
          ProjectDataSourceModel.Name config' = ProjectDataSourceModel.Name config ->
          ProjectDataSource.Read d config' resp0 w0 =
          ProjectDataSource.Read d config resp0 w0).
Proof.
  intros d config st w url name Hurl. subst url.
  split; [|split; [|split]].
  - split; vm_compute; reflexivity.
  - intros Hclient. unfold ProjectDataSource.Read. rewrite Hclient.
    with_default_client Hurl.
    change (Header_Set _ "Accept" "application/json")
      with (GET (strings_TrimSuffix (ProjectDataSource.endpoint d) "/"
                 +:+ "/api/v1/projects")).
    branches; reflexivity.
  - intros w' httpResp body projects HDo Hbody Hstatus Hjson.
    assert (Hrun : ProjectDataSource.Read d config (new_resp st) w =
              (match ProjectDataSource.find_by_name projects name with
               | None => AddError (new_resp st) "Not Found"
                           ("No project found with name: " +:+ name)
               | Some project =>
                   State_Set (new_resp st)
                     (ProjectDataSourceModel.of_Project project)
               end, w')).
    { unfold ProjectDataSource.Read.
      to_exchange Hurl HDo Hbody.
      rewrite Hstatus. cbn [Z.eqb StatusOK negb Pos.eqb].
      rewrite Hjson. fold name.
      destruct (ProjectDataSource.find_by_name projects name); reflexivity. }
    split.
    + intros before p rest -> Hbefore Hp.
      rewrite Hrun, (find_by_name_first before p rest name Hbefore Hp).
      reflexivity.
    + intros Hall. rewrite Hrun, (find_by_name_none projects name Hall).
      reflexivity.
  - intros config' resp0 w0 Hname.
    unfold ProjectDataSource.Read. rewrite Hname. reflexivity.
Qed.

(** ** Create of a project *)

(** C1, as the code has it.  When the remote system answers 201 with a
    project, Create stores that project: every attribute of the new state,
    [name] and [description] included, is the known value of the answer,
    whatever the plan held; a description the answer leaves out is stored
    as the known empty string.  The body of the request carries the name of
    the plan and its description when that is not empty. *)
Theorem Create_stores_the_answer `{GoLib} :
  forall (r : ProjectResource.t) (plan : ProjectResourceModel.t)
         (st : option ProjectResourceModel.t) (w w' : World)
         (httpResp : Response.t) (body : Bytes.t) (project : Project.t),
    let url := strings_TrimSuffix (ProjectResource.endpoint r) "/"
               +:+ "/api/v1/projects" in
    let sent_body :=
      JObj (("name", JStr (ValueString (ProjectResourceModel.Name plan)))
            :: omitempty "description"
                 (ValueString (ProjectResourceModel.Description plan))) in
    url_Parse_error url = None ->
    Client_Do (ProjectResource.client r) (POST url sent_body) w
    = (Ok httpResp, w') ->
    io_ReadAll (Response.Body httpResp) = Ok body ->
    Response.StatusCode httpResp = 201%Z ->
    json_Unmarshal Project.decode body = Ok project ->
    ProjectResource.Create r plan (new_resp st) w =
      ({| diags := [];
          State := Some
            {| ProjectResourceModel.Id := Known (Project.Id project);
               ProjectResourceModel.Name := Known (Project.Name project);
               ProjectResourceModel.Description :=
                 Known (Project.Description project);
               ProjectResourceModel.OrganisationId :=
                 Known (Project.OrganisationId project);
               ProjectResourceModel.Archived := Known (Project.Archived project);
               ProjectResourceModel.ArchivedAt :=
                 Known (Project.ArchivedAt project);
               ProjectResourceModel.CreatedAt :=
                 Known (Project.CreatedAt project);
               ProjectResourceModel.UpdatedAt :=
                 Known (Project.UpdatedAt project) |} |},
       w').
Proof.
  intros r plan st w w' httpResp body project url sent_body
         Hurl HDo Hbody Hstatus Hjson.
  subst url sent_body.
  unfold ProjectResource.Create.
  assert (Hdesc :
    (if negb (IsNull (ProjectResourceModel.Description plan))
     then ValueString (ProjectResourceModel.Description plan) else "")
    = ValueString (ProjectResourceModel.Description plan)).
  { destruct (ProjectResourceModel.Description plan); reflexivity. }
  rewrite Hdesc.
  unfold ProjectCreateRequest.marshal.
  cbn [ProjectCreateRequest.Name ProjectCreateRequest.Description app].
  to_exchange Hurl HDo Hbody.
  rewrite Hstatus. cbn [Z.eqb StatusCreated negb Pos.eqb].
  rewrite Hjson. reflexivity.
Qed.

(** The scenario: the plan names the project and leaves the description
    out; the remote system assigns [p1], [org1] and [t0]. *)
Lemma Create_stores_the_answer_scenario :
  ProjectResource.Create (H := example_lib) example_project_resource
    test_project_plan (new_resp None) (world_answering created_p1)
  = ({| diags := [];
        State := Some
          {| ProjectResourceModel.Id := Known "p1";
             ProjectResourceModel.Name := Known "Test Project";
             ProjectResourceModel.Description := Known "";
             ProjectResourceModel.OrganisationId := Known "org1";
             ProjectResourceModel.Archived := Known false;
             ProjectResourceModel.ArchivedAt := Known "";
             ProjectResourceModel.CreatedAt := Known t0;
             ProjectResourceModel.UpdatedAt := Known t0 |} |},
     after (world_answering created_p1)
       (POST "https://api.switchcloud.com/api/v1/projects"
          (JObj [("name", JStr "Test Project")]))).
Proof.
  apply (Create_stores_the_answer (H := example_lib)
           example_project_resource test_project_plan None
           (world_answering created_p1) _ created_p1
           (json_bytes p1_doc)
           {| Project.Id := "p1"; Project.Name := "Test Project";
              Project.Description := ""; Project.OrganisationId := "org1";
              Project.Archived := false; Project.ArchivedAt := "";
              Project.CreatedAt := t0; Project.UpdatedAt := t0 |});
    reflexivity.
Defined.

(** C1 fails on the code: in the scenario the description of the result is
    the known empty string, not null; and an input attribute takes the
    value echoed by the remote system, not the value of the plan. *)
Lemma Create_description_is_not_null :
  (ProjectResourceModel.Description <$>
     State (fst (ProjectResource.Create (H := example_lib)
                   example_project_resource test_project_plan (new_resp None)
                   (world_answering created_p1)))) = Some (Known "")
  /\ (ProjectResourceModel.Description <$>
        State (fst (ProjectResource.Create (H := example_lib)
                      example_project_resource test_project_plan (new_resp None)
                      (world_answering created_p1)))) <> Some Null
  /\ (ProjectResourceModel.Name <$>
        State (fst (ProjectResource.Create (H := example_lib)
                      example_project_resource test_project_plan (new_resp None)
                      (world_answering created_lowercase))))
     = Some (Known "test project")
  /\ ProjectResourceModel.Name test_project_plan = Known "Test Project".
Proof.
  split; [reflexivity|]. split; [discriminate|]. split; reflexivity.
Qed.

(** ** Import of a project member *)

Lemma Split_not_nil (s : string) (sep : ascii) : strings_Split s sep <> [].
Proof.
  destruct s as [|c s]; simpl; [discriminate|].
  destruct (Ascii.eqb c sep); [discriminate|].
  destruct (strings_Split s sep); discriminate.
Qed.

Lemma Split_no_sep (s : string) (sep : ascii) :
  no_sep sep s = true -> strings_Split s sep = [s].
Proof.
  induction s as [|c s IH]; simpl; [reflexivity|].
  intros Hc. apply andb_prop in Hc as [Hc Hs].
  apply negb_true_iff in Hc. rewrite Hc, (IH Hs). reflexivity.
Qed.

Lemma Split_app (a b : string) (sep : ascii) :
  no_sep sep a = true ->
  strings_Split (a +:+ String sep b) sep = a :: strings_Split b sep.
Proof.
  induction a as [|c a IH]; simpl.
  - intros _. rewrite Ascii.eqb_refl. reflexivity.
  - intros Hc. apply andb_prop in Hc as [Hc Ha].
    apply negb_true_iff in Hc. rewrite Hc, (IH Ha). reflexivity.
Qed.

Lemma Split_length_one (s : string) (sep : ascii) :
  length (strings_Split s sep) = 1%nat -> no_sep sep s = true.
Proof.
  induction s as [|c s IH]; simpl; [reflexivity|].
  destruct (Ascii.eqb c sep) eqn:Hc; simpl.
  - intros Hlen. pose proof (Split_not_nil s sep) as Hnil.
    destruct (strings_Split s sep); [contradiction | discriminate].
  - destruct (strings_Split s sep) as [|p ps] eqn:Hs.
    + exfalso. exact (Split_not_nil s sep Hs).
    + simpl. intros Hlen. apply IH. exact Hlen.
Qed.

Lemma Split_length_two (s : string) (sep : ascii) :
  length (strings_Split s sep) = 2%nat ->
  exists a b, no_sep sep a = true /\ no_sep sep b = true
              /\ s = a +:+ String sep b
              /\ strings_Split s sep = [a; b].
Proof.
  induction s as [|c s IH]; simpl; [discriminate|].
  destruct (Ascii.eqb c sep) eqn:Hc; simpl.
  - intros Hlen. injection Hlen as Hlen.
    apply Ascii.eqb_eq in Hc. subst c.
    pose proof (Split_length_one s sep Hlen) as Hs.
    exists "", s. rewrite (Split_no_sep s sep Hs). auto.
  - destruct (strings_Split s sep) as [|p ps] eqn:Hs.
    + exfalso. exact (Split_not_nil s sep Hs).
    + simpl. intros Hlen.
      destruct (IH Hlen) as (a & b & Ha & Hb & -> & Hab).
      injection Hab as -> ->.
      exists (String c a), b. simpl. rewrite Hc, Ha. auto.
Qed.

(** C7, as the code has it.  Import of a project member counts the
    segments of the identifier and nothing else.  An identifier of two
    segments, empty or not, is let through: no "Unexpected Import
    Identifier" is raised.  An identifier of any other number of segments
    is refused with that diagnostic, nothing is sent and the state is not
    touched. *)
Theorem ImportState_counts_segments `{GoLib} :
  forall (r : ProjectMemberResource.t) (ID : string)
         (st : option ProjectMemberResourceModel.t) (w : World),
    let res := ProjectMemberResource.ImportState r ID (new_resp st) w in
    (two_segments ID ->
     forall d, d ∈ diags (fst res) ->
               Summary d <> "Unexpected Import Identifier")
    /\ (~ two_segments ID ->
        res = ({| diags := [malformed ID]; State := st |}, w)).
Proof.
  intros r ID st w res. subst res. split.
  - intros (a & b & Ha & Hb & ->) d.
    unfold ProjectMemberResource.ImportState.
    change (a +:+ "/" +:+ b) with (a +:+ String "/" b).
    rewrite (Split_app a b "/" Ha), (Split_no_sep b "/" Hb).
    cbn [length Nat.eqb negb nth].
    unfold http_NewRequestWithContext, mbind, M_bind, bind.
    destruct (url_Parse_error _).
    + intros Hd. apply list_elem_of_In in Hd. simpl in Hd.
      destruct Hd as [<-|[]]. discriminate.
    + destruct (Client_Do _ _ w) as [httpResp w'].
      branches; cbn [fst diags AddError State_RemoveResource State_Set
                     State_SetAttribute Diagnostics_AddError];
        intros Hd; apply list_elem_of_In in Hd; simpl in Hd;
        try contradiction;
        destruct Hd as [<-|[]]; discriminate.
  - intros Hshape.
    unfold ProjectMemberResource.ImportState.
    destruct (Nat.eqb_spec (length (strings_Split ID "/")) 2) as [Hlen|Hlen].
    + exfalso. apply Hshape.
      destruct (Split_length_two ID "/" Hlen) as (a & b & Ha & Hb & HID & _).
      exists a, b. auto.
    + reflexivity.
Qed.

(** C2 fails on the code: the request of Import is addressed with the
    identity of the empty model, not with the two segments of the
    identifier.  Whatever well-formed identifier is imported, the one
    request that is sent goes to [/api/v1/projects//members/]. *)
Theorem ImportState_request_ignores_identifier `{GoLib} :
  forall (endpoint a b : string) (st : option ProjectMemberResourceModel.t)
         (w : World),
    let r := {| ProjectMemberResource.client := DefaultClient;
                ProjectMemberResource.endpoint := endpoint |} in
    let url := strings_TrimSuffix endpoint "/"
               +:+ "/api/v1/projects//members/" in
    no_sep "/" a = true -> no_sep "/" b = true ->
    url_Parse_error url = None ->
    sent (snd (ProjectMemberResource.ImportState r (a +:+ "/" +:+ b)
                 (new_resp st) w))
    = sent w ++ [GET url].
Proof.
  intros endpoint a b st w r url Ha Hb Hurl. subst r url.
  unfold ProjectMemberResource.ImportState.
  change (a +:+ "/" +:+ b) with (a +:+ String "/" b).
  rewrite (Split_app a b "/" Ha), (Split_no_sep b "/" Hb).
  cbn [length Nat.eqb negb nth ProjectMemberResource.endpoint
       ProjectMemberResource.client ProjectMemberResourceModel.null
       ProjectMemberResourceModel.ProjectId ProjectMemberResourceModel.Id
       ValueString].
  change (strings_TrimSuffix endpoint "/" +:+ "/api/v1/projects/"
          +:+ "" +:+ "/members/" +:+ "")
    with (strings_TrimSuffix endpoint "/" +:+ "/api/v1/projects//members/").
  with_default_client Hurl.
  change (Header_Set _ "Accept" "application/json")
    with (GET (strings_TrimSuffix endpoint "/" +:+ "/api/v1/projects//members/")).
  branches; reflexivity.
Qed.

(** ** Create of a project member *)

Lemma omitempty_nonempty (key value : string) :
  value <> "" -> omitempty key value = [(key, JStr value)].
Proof.
  intros Hne. unfold omitempty.
  apply String.eqb_neq in Hne. rewrite Hne. reflexivity.
Qed.

(** C8, as the code has it.  The body of the create request of a project
    member carries [user_id] alone when the plan knows a non-empty
    [user_id] and its [email] is unknown or null, and [email] alone when
    the plan knows a non-empty [email] and its [user_id] is unknown; the
    [project_id] travels in the path of the request, not in its body. *)
Theorem Create_member_sends_the_supplied_identifier `{GoLib} :
  forall (endpoint : string) (plan : ProjectMemberResourceModel.t)
         (st : option ProjectMemberResourceModel.t) (w : World),
    let r := {| ProjectMemberResource.client := DefaultClient;
                ProjectMemberResource.endpoint := endpoint |} in
    let url := strings_TrimSuffix endpoint "/" +:+ "/api/v1/projects/"
               +:+ ValueString (ProjectMemberResourceModel.ProjectId plan)
               +:+ "/members" in
    let res := ProjectMemberResource.Create r plan (new_resp st) w in
    url_Parse_error url = None ->
    (forall u,
        ProjectMemberResourceModel.UserId plan = Known u -> u <> "" ->
        ProjectMemberResourceModel.EMail plan = Unknown
        \/ ProjectMemberResourceModel.EMail plan = Null ->
        sent (snd res) = sent w ++ [POST url (JObj [("user_id", JStr u)])])
    /\ (forall e,
          ProjectMemberResourceModel.EMail plan = Known e -> e <> "" ->
          ProjectMemberResourceModel.UserId plan = Unknown ->
          sent (snd res) = sent w ++ [POST url (JObj [("email", JStr e)])]).
Proof.
  intros endpoint plan st w r url res Hurl. subst r url res.
  split.
  - intros u Hu Hne _.
    unfold ProjectMemberResource.Create.
    rewrite Hu.
    cbn [IsUnknown ValueString ProjectMemberCreateRequest.zero
         ProjectMemberCreateRequest.UserId ProjectMemberCreateRequest.EMail
         ProjectMemberResource.endpoint ProjectMemberResource.client].
    unfold ProjectMemberCreateRequest.marshal.
    cbn [ProjectMemberCreateRequest.UserId ProjectMemberCreateRequest.EMail].
    rewrite (omitempty_nonempty "user_id" u Hne).
    change (omitempty "email" "") with (@nil (string * json)).
    cbn [app].
    with_default_client Hurl.
    change (Header_Set (Header_Set _ _ _) _ _)
      with (POST (strings_TrimSuffix endpoint "/" +:+ "/api/v1/projects/"
                  +:+ ValueString (ProjectMemberResourceModel.ProjectId plan)
                  +:+ "/members")
              (JObj [("user_id", JStr u)])).
    branches; reflexivity.
  - intros e He Hne Hu.
    unfold ProjectMemberResource.Create.
    rewrite Hu, He.
    cbn [IsUnknown ValueString ProjectMemberCreateRequest.zero
         ProjectMemberCreateRequest.UserId ProjectMemberCreateRequest.EMail
         ProjectMemberResource.endpoint ProjectMemberResource.client].
    unfold ProjectMemberCreateRequest.marshal.
    cbn [ProjectMemberCreateRequest.UserId ProjectMemberCreateRequest.EMail].
    rewrite (omitempty_nonempty "email" e Hne).
    change (omitempty "user_id" "") with (@nil (string * json)).
    cbn [app].
    with_default_client Hurl.
    change (Header_Set (Header_Set _ _ _) _ _)
      with (POST (strings_TrimSuffix endpoint "/" +:+ "/api/v1/projects/"
                  +:+ ValueString (ProjectMemberResourceModel.ProjectId plan)
                  +:+ "/members")
              (JObj [("email", JStr e)])).
    branches; reflexivity.
Qed.

(** ** The statements at concrete inputs *)

(** The instance of C5: a project that is gone, and a member whose read is
    refused with 503. *)
Lemma Read_absent_or_rejected_instance :
  ProjectResource.Read (H := example_lib) example_project_resource p1_state
    (new_resp (Some p1_state)) (world_answering project_not_found)
  = ({| diags := []; State := None |},
     after (world_answering project_not_found)
       (GET "https://api.switchcloud.com/api/v1/projects/p1"))
  /\ ProjectMemberResource.Read (H := example_lib) example_member_resource
       member_state (new_resp (Some member_state)) (world_answering overloaded)
     = ({| diags := [NewErrorDiagnostic "Client Error"
                       ("API returned status 503: Please retry later"
                        +:+ String "010"%char "")];
           State := Some member_state |},
        after (world_answering overloaded) (GET member_url_9)).
Proof.
  split.
  - pose proof (Read_absent_or_rejected (H := example_lib) project_not_found
                  (text_bytes "Project not found" not_json) eq_refl) as [HP _].
    apply (HP example_project_resource p1_state (Some p1_state)
             (world_answering project_not_found) _ eq_refl eq_refl).
    reflexivity.
  - pose proof (Read_absent_or_rejected (H := example_lib) overloaded
                  (text_bytes "Please retry later" not_json) eq_refl) as [_ HM].
    apply (HM example_member_resource member_state (Some member_state)
             (world_answering overloaded) _ eq_refl eq_refl).
    + discriminate.
    + cbn. lia.
Defined.

(** The instance of the statement on Delete: a member that is deleted with
    204. *)
Lemma Delete_succeeds_on_no_content_only_instance :
  ProjectMemberResource.Delete (H := example_lib) example_member_resource
    member_state (new_resp (Some member_state)) (world_answering deleted)
  = (new_resp (Some member_state),
     after (world_answering deleted) (DELETE member_url_9)).
Proof.
  apply (Delete_succeeds_on_no_content_only (H := example_lib)
           example_member_resource member_state (Some member_state)
           (world_answering deleted) _ deleted no_bytes
           eq_refl eq_refl eq_refl).
Defined.

(** C3 fails on the code: the remote system answers 404 to the delete
    request, the member being gone already, and Delete reports an error. *)
Lemma Delete_of_absent_member_fails :
  fst (ProjectMemberResource.Delete (H := example_lib) example_member_resource
         member_state (new_resp (Some member_state))
         (world_answering member_not_found))
  = {| diags := [NewErrorDiagnostic "Client Error"
                   ("API returned status 404: Project Member not found"
                    +:+ String "010"%char "")];
       State := Some member_state |}
  /\ HasError
       (diags (fst (ProjectMemberResource.Delete (H := example_lib)
                      example_member_resource member_state
                      (new_resp (Some member_state))
                      (world_answering member_not_found)))) = true.
Proof.
  split; reflexivity.
Qed.

(** The instance of C10: of the two projects named [test1] the first, [p1],
    is the result, and the one request went to the collection. *)
Lemma DataSource_Read_finds_by_name_instance :
  ProjectDataSource.Read (H := example_lib) example_data_source test1_config
    (new_resp None) (world_answering three_projects)
  = ({| diags := [];
        State := Some
          {| ProjectDataSourceModel.Id := Known "p1";
             ProjectDataSourceModel.Name := Known "test1";
             ProjectDataSourceModel.Description := Known "";
             ProjectDataSourceModel.OrganisationId := Known "org1";
             ProjectDataSourceModel.Archived := Known false;
             ProjectDataSourceModel.ArchivedAt := Known "";
             ProjectDataSourceModel.CreatedAt := Known t0;
             ProjectDataSourceModel.UpdatedAt := Known t0 |} |},
     after (world_answering three_projects)
       (GET "https://api.switchcloud.com/api/v1/projects")).
Proof.
  pose proof (DataSource_Read_finds_by_name (H := example_lib)
                example_data_source test1_config None
                (world_answering three_projects) eq_refl)
    as (_ & _ & Hfound & _).
  destruct (Hfound _ three_projects (json_bytes three_projects_doc)
              [project_of "p0" "other"; project_of "p1" "test1";
               project_of "p2" "test1"]
              eq_refl eq_refl eq_refl eq_refl) as [Hfirst _].
  apply (Hfirst [project_of "p0" "other"] (project_of "p1" "test1")
           [project_of "p2" "test1"] eq_refl); [|reflexivity].
  intros q Hq. apply list_elem_of_In in Hq. simpl in Hq.
  destruct Hq as [<-|[]]. discriminate.
Defined.

(** The instance of C7: [proj-1/mem-9] is let through and [proj-1] is
    refused. *)
Lemma ImportState_counts_segments_instance :
  (forall d,
      d ∈ diags (fst (ProjectMemberResource.ImportState (H := example_lib)
                        example_member_resource "proj-1/mem-9"
                        (new_resp None) (world_answering member_not_found))) ->
      Summary d <> "Unexpected Import Identifier")
  /\ ProjectMemberResource.ImportState (H := example_lib)
       example_member_resource "proj-1" (new_resp None)
       (world_answering member_not_found)
     = ({| diags := [malformed "proj-1"]; State := None |},
        world_answering member_not_found).
Proof.
  split.
  - apply (ImportState_counts_segments (H := example_lib)
             example_member_resource "proj-1/mem-9" None
             (world_answering member_not_found)).
    exists "proj-1", "mem-9". repeat split; reflexivity.
  - apply (ImportState_counts_segments (H := example_lib)
             example_member_resource "proj-1" None
             (world_answering member_not_found)).
    intros (a & b & Ha & Hb & HID).
    assert (Hlen : length (strings_Split "proj-1" "/") = 2%nat).
    { rewrite HID.
      change (a +:+ "/" +:+ b) with (a +:+ String "/" b).
      rewrite (Split_app a b "/" Ha), (Split_no_sep b "/" Hb). reflexivity. }
    discriminate Hlen.
Defined.

(** C7 fails on the code: an identifier with an empty segment is not
    refused; no "Unexpected Import Identifier" is raised for [proj-1/] or
    for [/mem-9], and a request is sent for each. *)
Lemma ImportState_lets_empty_segments_through :
  ProjectMemberResource.ImportState (H := example_lib)
    example_member_resource "proj-1/" (new_resp None)
    (world_answering overloaded)
  = ({| diags := [NewErrorDiagnostic "Client Error"
                    ("API returned status 503: Please retry later"
                     +:+ String "010"%char "")];
        State := Some
          {| ProjectMemberResourceModel.Id := Known "";
             ProjectMemberResourceModel.ProjectId := Known "proj-1";
             ProjectMemberResourceModel.UserId := Null;
             ProjectMemberResourceModel.EMail := Null;
             ProjectMemberResourceModel.DisplayName := Null |} |},
     after (world_answering overloaded)
       (GET "https://api.switchcloud.com/api/v1/projects//members/"))
  /\ ProjectMemberResource.ImportState (H := example_lib)
       example_member_resource "/mem-9" (new_resp None)
       (world_answering overloaded)
     = ({| diags := [NewErrorDiagnostic "Client Error"
                       ("API returned status 503: Please retry later"
                        +:+ String "010"%char "")];
           State := Some
             {| ProjectMemberResourceModel.Id := Known "mem-9";
                ProjectMemberResourceModel.ProjectId := Known "";
                ProjectMemberResourceModel.UserId := Null;
                ProjectMemberResourceModel.EMail := Null;
                ProjectMemberResourceModel.DisplayName := Null |} |},
        after (world_answering overloaded)
          (GET "https://api.switchcloud.com/api/v1/projects//members/")).
Proof.
  split; reflexivity.
Qed.

(** The instance of the statement on the request of Import: the import of
    [proj-1/mem-9] asks for [/api/v1/projects//members/]. *)
Lemma ImportState_request_ignores_identifier_instance :
  sent (snd (ProjectMemberResource.ImportState (H := example_lib)
               example_member_resource "proj-1/mem-9" (new_resp None)
               (world_answering member_not_found)))
  = [GET "https://api.switchcloud.com/api/v1/projects//members/"].
Proof.
  apply (ImportState_request_ignores_identifier (H := example_lib)
           "https://api.switchcloud.com" "proj-1" "mem-9" None
           (world_answering member_not_found) eq_refl eq_refl eq_refl).
Defined.

(** The instance of C8: the two plans of the acceptance test. *)
Lemma Create_member_sends_the_supplied_identifier_instance :
  sent (snd (ProjectMemberResource.Create (H := example_lib)
               example_member_resource plan_with_user_id (new_resp None)
               (world_answering member_not_found)))
  = [POST members_url (JObj [("user_id", JStr "user-12345")])]
  /\ sent (snd (ProjectMemberResource.Create (H := example_lib)
                  example_member_resource plan_with_email (new_resp None)
                  (world_answering member_not_found)))
     = [POST members_url (JObj [("email", JStr "user@example.com")])].
Proof.
  split.
  - apply (Create_member_sends_the_supplied_identifier (H := example_lib)
             "https://api.switchcloud.com" plan_with_user_id None
             (world_answering member_not_found) eq_refl);
      [reflexivity | discriminate | left; reflexivity].
  - apply (Create_member_sends_the_supplied_identifier (H := example_lib)
             "https://api.switchcloud.com" plan_with_email None
             (world_answering member_not_found) eq_refl);
      [reflexivity | discriminate | reflexivity].
Defined.

(** C8 fails on the code: a desired object that supplies [email] and has a
    null [user_id] passes validation, and the body of its create request is
    the empty object: the known email is not sent.  A known [user_id] that
    is the empty string is not sent either. *)
Lemma Create_member_drops_email_when_user_id_is_null :
  ProjectMemberResource.ValidateConfig example_member_resource
    desired_with_email [] (world_answering member_not_found)
  = ([], world_answering member_not_found)
  /\ sent (snd (ProjectMemberResource.Create (H := example_lib)
                  example_member_resource desired_with_email (new_resp None)
                  (world_answering member_not_found)))
     = [POST members_url (JObj [])]
  /\ sent (snd (ProjectMemberResource.Create (H := example_lib)
                  example_member_resource plan_with_empty_user_id
                  (new_resp None) (world_answering member_not_found)))
     = [POST members_url (JObj [])].
Proof.
  repeat split; reflexivity.
Qed.

(** ** Further properties: what reaches the remote system *)

Lemma configured_client_Do (Getenv : string -> string)
    (config : SwitchcloudProviderModel.t) (req : Request.t) (w : World) :
  Client_Do (ProviderData.client (SwitchcloudProvider.Configure Getenv config))
    req w
  = (remote w (sent w) (authorize (configured_key Getenv config) req),
     after w (authorize (configured_key Getenv config) req)).
Proof.
  unfold configured_key, SwitchcloudProvider.Configure.
  destruct (String.eqb (Getenv "SWITCHCLOUD_API_KEY") "") eqn:Henv; simpl;
    [destruct (SwitchcloudProviderModel.ApiKey config)|]; reflexivity.
Qed.

Section OneExchange.
Context `{GoLib}.
Variable Getenv : string -> string.
Variable config : SwitchcloudProviderModel.t.

Let pd := SwitchcloudProvider.Configure Getenv config.
Let key := configured_key Getenv config.

Lemma ProjectResource_Create_one_exchange endpoint plan resp w :
  one_exchange key w
    (snd (ProjectResource.Create
            {| ProjectResource.client := ProviderData.client pd;
               ProjectResource.endpoint := endpoint |} plan resp w)).
Proof. subst pd key. one_exchange_tac configured_client_Do. Qed.

Lemma ProjectResource_Read_one_exchange endpoint state resp w :
  one_exchange key w
    (snd (ProjectResource.Read
            {| ProjectResource.client := ProviderData.client pd;
               ProjectResource.endpoint := endpoint |} state resp w)).
Proof. subst pd key. one_exchange_tac configured_client_Do. Qed.

Lemma ProjectMemberResource_Create_one_exchange endpoint plan resp w :
  one_exchange key w
    (snd (ProjectMemberResource.Create
            {| ProjectMemberResource.client := ProviderData.client pd;
               ProjectMemberResource.endpoint := endpoint |} plan resp w)).
Proof. subst pd key. one_exchange_tac configured_client_Do. Qed.

Lemma ProjectMemberResource_Read_one_exchange endpoint state resp w :
  one_exchange key w
    (snd (ProjectMemberResource.Read
            {| ProjectMemberResource.client := ProviderData.client pd;
               ProjectMemberResource.endpoint := endpoint |} state resp w)).
Proof. subst pd key. one_exchange_tac configured_client_Do. Qed.

Lemma ProjectMemberResource_Delete_one_exchange endpoint state resp w :
  one_exchange key w
    (snd (ProjectMemberResource.Delete
            {| ProjectMemberResource.client := ProviderData.client pd;
               ProjectMemberResource.endpoint := endpoint |} state resp w)).
Proof. subst pd key. one_exchange_tac configured_client_Do. Qed.

Lemma ProjectMemberResource_ImportState_one_exchange endpoint ID resp w :
  one_exchange key w
    (snd (ProjectMemberResource.ImportState
            {| ProjectMemberResource.client := ProviderData.client pd;
               ProjectMemberResource.endpoint := endpoint |} ID resp w)).
Proof.
  subst pd key. unfold ProjectMemberResource.ImportState.
  destruct (negb _); [left; reflexivity|].
  one_exchange_tac configured_client_Do.
Qed.

Lemma ProjectDataSource_Read_one_exchange endpoint cfg resp w :
  one_exchange key w
    (snd (ProjectDataSource.Read
            {| ProjectDataSource.client := ProviderData.client pd;
               ProjectDataSource.endpoint := endpoint |} cfg resp w)).
Proof. subst pd key. one_exchange_tac configured_client_Do. Qed.

End OneExchange.

Lemma one_exchange_new (key : option string) (w w' : World) :
  one_exchange key w w' ->
  exists new, exchanged w w' new /\ (length new <= 1)%nat
              /\ forall k, key = Some k -> Forall (bearer k) new.
Proof.
  intros [->|[req ->]].
  - exists []. unfold exchanged. rewrite app_nil_r.
    repeat split; [simpl; lia | constructor].
  - exists [authorize key req]. unfold exchanged, after. simpl.
    repeat split; [lia|]. intros k ->. constructor; [|constructor].
    unfold bearer, authorize, Header_Set. simpl. apply lookup_insert_eq.
Qed.


(** X2. When the provider is configured with an API key, every request that
    a method of the resources or of the data source sends carries the
    header [Authorization: Bearer] with that key. *)
Theorem every_request_carries_the_key `{GoLib} :
  forall (Getenv : string -> string) (config : SwitchcloudProviderModel.t)
         (k endpoint : string) (w : World),
    configured_key Getenv config = Some k ->
    let client := ProviderData.client (SwitchcloudProvider.Configure Getenv config) in
    let pr := {| ProjectResource.client := client;
                 ProjectResource.endpoint := endpoint |} in
    let mr := {| ProjectMemberResource.client := client;
                 ProjectMemberResource.endpoint := endpoint |} in
    let ds := {| ProjectDataSource.client := client;
                 ProjectDataSource.endpoint := endpoint |} in
    let authorized (w' : World) :=
      exists new, exchanged w w' new /\ Forall (bearer k) new in
    (forall plan resp, authorized (snd (ProjectResource.Create pr plan resp w)))
    /\ (forall state resp, authorized (snd (ProjectResource.Read pr state resp w)))
    /\ (forall plan resp, authorized (snd (ProjectMemberResource.Create mr plan resp w)))
    /\ (forall state resp, authorized (snd (ProjectMemberResource.Read mr state resp w)))
    /\ (forall state resp, authorized (snd (ProjectMemberResource.Delete mr state resp w)))
    /\ (forall ID resp, authorized (snd (ProjectMemberResource.ImportState mr ID resp w)))
    /\ (forall cfg resp, authorized (snd (ProjectDataSource.Read ds cfg resp w))).
Proof.
  intros Getenv config k endpoint w Hkey client pr mr ds authorized.
  subst client pr mr ds authorized.
  assert (Hone : forall w', one_exchange (configured_key Getenv config) w w' ->
                            exists new, exchanged w w' new /\ Forall (bearer k) new).
  { intros w' Hw'. destruct (one_exchange_new _ _ _ Hw') as (new & ? & _ & Hb).
    exists new. auto. }
  repeat split; intros; apply Hone.
  - apply ProjectResource_Create_one_exchange.
  - apply ProjectResource_Read_one_exchange.
  - apply ProjectMemberResource_Create_one_exchange.
  - apply ProjectMemberResource_Read_one_exchange.
  - apply ProjectMemberResource_Delete_one_exchange.
  - apply ProjectMemberResource_ImportState_one_exchange.
  - apply ProjectDataSource_Read_one_exchange.
Qed.

(** ** Further properties: the outcomes of a call *)

(** X3. Create, of a project and of a project member, has two outcomes and
    no other.  It succeeds: no diagnostic, and the state it stores has every
    attribute known (none is left null or unknown).  Or it fails: exactly
    one diagnostic is added, the error "Client Error", and the state of the
    response is what it was, so no partial object is stored. *)
Theorem Create_succeeds_or_leaves_the_state `{GoLib} :
  forall (pr : ProjectResource.t) (mr : ProjectMemberResource.t)
         (pplan : ProjectResourceModel.t) (mplan : ProjectMemberResourceModel.t)
         (pst : option ProjectResourceModel.t)
         (mst : option ProjectMemberResourceModel.t) (w : World),
    (let res := fst (ProjectResource.Create pr pplan (new_resp pst) w) in
     (diags res = []
      /\ exists m, State res = Some m /\ project_all_known m = true)
     \/ (State res = pst /\ exists detail, diags res = [client_error detail]))
    /\ (let res := fst (ProjectMemberResource.Create mr mplan (new_resp mst) w) in
        (diags res = []
         /\ exists m, State res = Some m /\ member_all_known m = true)
        \/ (State res = mst /\ exists detail, diags res = [client_error detail])).
Proof.
  intros. split.
  - unfold ProjectResource.Create. outcomes.
  - unfold ProjectMemberResource.Create. outcomes.
Qed.

(** X4. Read, of a project and of a project member, has three outcomes and
    no other: the state is replaced by one whose attributes are all known,
    with no diagnostic; the state is removed, with no diagnostic; or exactly
    one "Client Error" is added and the state is what it was.  Delete of a
    project member has two: nothing changes in the response, or exactly one
    "Client Error" is added; it never writes or removes the state itself. *)
Theorem Read_and_Delete_outcomes `{GoLib} :
  forall (pr : ProjectResource.t) (mr : ProjectMemberResource.t)
         (pstate : ProjectResourceModel.t) (mstate : ProjectMemberResourceModel.t)
         (pst : option ProjectResourceModel.t)
         (mst : option ProjectMemberResourceModel.t) (w : World),
    (let res := fst (ProjectResource.Read pr pstate (new_resp pst) w) in
     (diags res = []
      /\ exists m, State res = Some m /\ project_all_known m = true)
     \/ (diags res = [] /\ State res = None)
     \/ (State res = pst /\ exists detail, diags res = [client_error detail]))
    /\ (let res := fst (ProjectMemberResource.Read mr mstate (new_resp mst) w) in
        (diags res = []
         /\ exists m, State res = Some m /\ member_all_known m = true)
        \/ (diags res = [] /\ State res = None)
        \/ (State res = mst /\ exists detail, diags res = [client_error detail]))
    /\ (let res := fst (ProjectMemberResource.Delete mr mstate (new_resp mst) w) in
        State res = mst
        /\ (diags res = [] \/ exists detail, diags res = [client_error detail])).
Proof.
  intros. split; [|split].
  - unfold ProjectResource.Read. outcomes.
  - unfold ProjectMemberResource.Read. outcomes.
  - unfold ProjectMemberResource.Delete. outcomes.
Qed.

(** ** Further properties: the address of a request *)

Lemma length_append (e t : string) :
  String.length (e +:+ t) = (String.length e + String.length t)%nat.
Proof. induction e as [|c e IH]; simpl; [reflexivity | rewrite IH; reflexivity]. Qed.

Lemma substring_prefix (e t : string) :
  substring 0 (String.length e) (e +:+ t) = e.
Proof.
  induction e as [|c e IH]; simpl.
  - destruct t; reflexivity.
  - rewrite IH. reflexivity.
Qed.

Lemma substring_skip (e t : string) (m : nat) :
  substring (String.length e) m (e +:+ t) = substring 0 m t.
Proof. induction e as [|c e IH]; simpl; [reflexivity | exact IH]. Qed.

Lemma TrimSuffix_added_slash (e : string) :
  strings_TrimSuffix (e +:+ "/") "/" = e.
Proof.
  unfold strings_TrimSuffix, strings_HasSuffix.
  rewrite length_append. cbn [String.length].
  replace (String.length e + 1 - 1)%nat with (String.length e) by lia.
  rewrite substring_skip, substring_prefix.
  destruct (String.length e + 1)%nat eqn:Hlen; [lia|]. reflexivity.
Qed.

Lemma TrimSuffix_without_slash (e : string) :
  strings_HasSuffix e "/" = false -> strings_TrimSuffix e "/" = e.
Proof. intros Hno. unfold strings_TrimSuffix. rewrite Hno. reflexivity. Qed.

(** X5. A slash at the end of the endpoint makes no difference: for an
    endpoint that does not end in a slash, every method behaves with the
    endpoint followed by one slash exactly as with the endpoint itself. *)
Theorem trailing_slash_of_endpoint_is_ignored `{GoLib} :
  forall (c : Client.t) (e : string),
    strings_HasSuffix e "/" = false ->
    let pr x := {| ProjectResource.client := c; ProjectResource.endpoint := x |} in
    let mr x := {| ProjectMemberResource.client := c;
                   ProjectMemberResource.endpoint := x |} in
    let ds x := {| ProjectDataSource.client := c;
                   ProjectDataSource.endpoint := x |} in
    (forall plan resp w,
        ProjectResource.Create (pr (e +:+ "/")) plan resp w
        = ProjectResource.Create (pr e) plan resp w)
    /\ (forall state resp w,
          ProjectResource.Read (pr (e +:+ "/")) state resp w
          = ProjectResource.Read (pr e) state resp w)
    /\ (forall plan resp w,
          ProjectMemberResource.Create (mr (e +:+ "/")) plan resp w
          = ProjectMemberResource.Create (mr e) plan resp w)
    /\ (forall state resp w,
          ProjectMemberResource.Read (mr (e +:+ "/")) state resp w
          = ProjectMemberResource.Read (mr e) state resp w)
    /\ (forall state resp w,
          ProjectMemberResource.Delete (mr (e +:+ "/")) state resp w
          = ProjectMemberResource.Delete (mr e) state resp w)
    /\ (forall ID resp w,
          ProjectMemberResource.ImportState (mr (e +:+ "/")) ID resp w
          = ProjectMemberResource.ImportState (mr e) ID resp w)
    /\ (forall cfg resp w,
          ProjectDataSource.Read (ds (e +:+ "/")) cfg resp w
          = ProjectDataSource.Read (ds e) cfg resp w).
Proof.
  intros c e Hno pr mr ds. subst pr mr ds.
  pose proof (TrimSuffix_added_slash e) as Hadd.
  pose proof (TrimSuffix_without_slash e Hno) as Hsame.
  repeat split; intros;
    unfold ProjectResource.Create, ProjectResource.Read,
           ProjectMemberResource.Create, ProjectMemberResource.Read,
           ProjectMemberResource.Delete, ProjectMemberResource.ImportState,
           ProjectDataSource.Read;
    cbn [ProjectResource.endpoint ProjectResource.client
         ProjectMemberResource.endpoint ProjectMemberResource.client
         ProjectDataSource.endpoint ProjectDataSource.client];
    rewrite Hadd, Hsame; reflexivity.
Qed.


(** ** Further properties: import *)


(** X8. Import of a project member with an identifier of two segments
    writes the segments to the state before it asks the remote system, and
    has three outcomes: a state whose attributes are all known and no
    diagnostic; no state and no diagnostic (the answer was 404); or one
    "Client Error" and a state that holds the two segments as [project_id]
    and [id].  Unlike Create, a failed Import leaves that partial state
    behind. *)
Theorem Member_import_outcomes `{GoLib} :
  forall (r : ProjectMemberResource.t) (a b : string)
         (st : option ProjectMemberResourceModel.t) (w : World),
    no_sep "/" a = true -> no_sep "/" b = true ->
    let res := fst (ProjectMemberResource.ImportState r (a +:+ "/" +:+ b)
                      (new_resp st) w) in
    let prior := default ProjectMemberResourceModel.null st in
    (diags res = []
     /\ exists m, State res = Some m /\ member_all_known m = true)
    \/ (diags res = [] /\ State res = None)
    \/ ((exists detail, diags res = [client_error detail])
        /\ State res = Some
             {| ProjectMemberResourceModel.Id := Known b;
                ProjectMemberResourceModel.ProjectId := Known a;
                ProjectMemberResourceModel.UserId :=
                  ProjectMemberResourceModel.UserId prior;
                ProjectMemberResourceModel.EMail :=
                  ProjectMemberResourceModel.EMail prior;
                ProjectMemberResourceModel.DisplayName :=
                  ProjectMemberResourceModel.DisplayName prior |}).
Proof.
  intros r a b st w Ha Hb res prior. subst res prior.
  unfold ProjectMemberResource.ImportState.
  change (a +:+ "/" +:+ b) with (a +:+ String "/" b).
  rewrite (Split_app a b "/" Ha), (Split_no_sep b "/" Hb).
  cbn [length Nat.eqb negb nth].
  unfold http_NewRequestWithContext, mbind, M_bind, bind.
  branches;
    cbn [fst snd diags State AddError State_Set State_RemoveResource mret
         M_ret ret Diagnostics_AddError new_resp State_SetAttribute];
    first [ left; split; [reflexivity | eexists; split; reflexivity]
          | right; left; split; reflexivity
          | right; right; split; [eexists; reflexivity | reflexivity] ].
Qed.

(** ** Further properties: the project data source *)

(** X9. Read of the project data source either stores a state whose
    attributes are all known, with no diagnostic, or adds exactly one error
    ("Client Error" or "Not Found") and leaves the state as it was; it never
    removes the state.  The status 404, like every status other than 200,
    is an error here, with the status code and the raw body in the
    diagnostic. *)
Theorem DataSource_Read_outcomes `{GoLib} :
  forall (d : ProjectDataSource.t) (config : ProjectDataSourceModel.t)
         (st : option ProjectDataSourceModel.t) (w : World),
    let res := fst (ProjectDataSource.Read d config (new_resp st) w) in
    let url := strings_TrimSuffix (ProjectDataSource.endpoint d) "/"
               +:+ "/api/v1/projects" in
    ((diags res = []
      /\ exists m, State res = Some m /\ data_source_all_known m = true)
     \/ (State res = st
         /\ exists summary detail,
              diags res = [NewErrorDiagnostic summary detail]
              /\ (summary = "Client Error" \/ summary = "Not Found")))
    /\ (forall (w' : World) (httpResp : Response.t) (body : Bytes.t),
          url_Parse_error url = None ->
          Client_Do (ProjectDataSource.client d) (GET url) w = (Ok httpResp, w') ->
          io_ReadAll (Response.Body httpResp) = Ok body ->
          Response.StatusCode httpResp <> 200%Z ->
          ProjectDataSource.Read d config (new_resp st) w
          = ({| diags := [rejected (Response.StatusCode httpResp) body];
                State := st |}, w')).
Proof.
  intros d config st w res url. subst res url. split.
  - unfold ProjectDataSource.Read.
    cbn [new_resp diags HasError existsb].
    unfold http_NewRequestWithContext, mbind, M_bind, bind.
    branches;
      cbn [fst snd diags State AddError State_Set mret M_ret ret
           Diagnostics_AddError new_resp];
      first [ left; split; [reflexivity | eexists; split; reflexivity]
            | right; split; [reflexivity|];
              do 2 eexists; split; [reflexivity|]; auto ].
  - intros w' httpResp body Hurl HDo Hbody Hstatus.
    unfold ProjectDataSource.Read.
    to_exchange Hurl HDo Hbody.
    unfold StatusOK.
    destruct (Z.eqb_spec (Response.StatusCode httpResp) 200) as [|_];
      [contradiction|].
    reflexivity.
Qed.

(** ** Further properties: decoding an answer *)

Lemma Project_field_keeps_Description `{GoLib} (key : string) (v : json)
    (p p' : Project.t) :
  key_is key "description" = false ->
  Project.field key v p = Ok p' ->
  Project.Description p' = Project.Description p.
Proof.
  intros Hkey. unfold Project.field. rewrite Hkey.
  repeat match goal with
         | |- context [if ?b then _ else _] => destruct b
         end;
    unfold result_map;
    repeat match goal with
           | |- context [match ?x with _ => _ end] => destruct x
           end;
    intros Heq; inversion Heq; reflexivity.
Qed.

Lemma fold_fields_keeps_Description `{GoLib} (members : list (string * json)) :
  Forall (fun kv => key_is (fst kv) "description" = false) members ->
  forall (acc : result Project.t) (p p' : Project.t),
    acc = Ok p ->
    fold_left
      (fun acc kv =>
         match acc with
         | Ok x => Project.field (fst kv) (snd kv) x
         | Err e => Err e
         end) members acc = Ok p' ->
    Project.Description p' = Project.Description p.
Proof.
  induction 1 as [|kv members Hkv _ IH]; simpl; intros acc p p' -> Hfold.
  - inversion Hfold. reflexivity.
  - destruct (Project.field (fst kv) (snd kv) p) as [q|e] eqn:Hq.
    + rewrite (IH (Ok q) q p' eq_refl Hfold).
      exact (Project_field_keeps_Description _ _ _ _ Hkv Hq).
    + exfalso. clear -Hfold. induction members as [|x xs IHx]; simpl in Hfold;
        [discriminate | auto].
Qed.

(** X10. An answer that has no [description] member decodes to a project
    whose description is the empty string, so Create and Read store the
    description as the known empty string, never as null. *)
Theorem missing_description_is_stored_empty `{GoLib} :
  forall (members : list (string * json)) (body : Bytes.t) (project : Project.t),
    Bytes.parsed body = Ok (JObj members) ->
    Forall (fun kv => key_is (fst kv) "description" = false) members ->
    json_Unmarshal Project.decode body = Ok project ->
    Project.Description project = ""
    /\ ProjectResourceModel.Description (ProjectResourceModel.of_Project project)
       = Known ""
    /\ ProjectDataSourceModel.Description (ProjectDataSourceModel.of_Project project)
       = Known "".
Proof.
  intros members body project Hparsed Hkeys Hjson.
  assert (Hdesc : Project.Description project = "").
  { unfold json_Unmarshal in Hjson. rewrite Hparsed in Hjson.
    unfold Project.decode, decode_struct in Hjson.
    exact (fold_fields_keeps_Description members Hkeys (Ok Project.zero)
             Project.zero project eq_refl Hjson). }
  repeat split; [exact Hdesc | |]; simpl; rewrite Hdesc; reflexivity.
Qed.

(** ** Further properties: the authenticated transport *)

(** X11. The authenticated transport changes the [Authorization] header of
    a request and nothing else: method, URL and body are those of the
    request, every other header is as it was, and an [Authorization] header
    the request already had is replaced, not kept beside the new one. *)
Theorem authenticated_transport_touches_one_header :
  forall (t : authenticatedTransport.t) (req : Request.t) (w : World),
  exists req',
    authenticatedTransport.RoundTrip t req w
    = RoundTrip (authenticatedTransport.transport t) req' w
    /\ Request.Method req' = Request.Method req
    /\ Request.URL req' = Request.URL req
    /\ Request.Body req' = Request.Body req
    /\ Request.Header req' !! "Authorization"
       = Some ["Bearer " +:+ authenticatedTransport.apiKey t]
    /\ forall key, key <> "Authorization" ->
                   Request.Header req' !! key = Request.Header req !! key.
Proof.
  intros t req w.
  exists (Header_Set req "Authorization"
            ("Bearer " +:+ authenticatedTransport.apiKey t)).
  repeat split.
  - apply lookup_insert_eq.
  - intros key Hkey. apply lookup_insert_ne. congruence.
Qed.

(** ** Further properties: Configure and Metadata *)


Lemma append_cancel_l (p a b : string) : p +:+ a = p +:+ b -> a = b.
Proof.
  induction p as [|c p IH]; simpl; intros Heq; [exact Heq|].
  injection Heq as Heq. exact (IH Heq).
Qed.

(** X13. Whatever the type name of the provider, the two resources get
    different type names, and the data source gets the name of the project
    resource; with the name the provider announces they are
    [switchcloud_project] and [switchcloud_project_member]. *)
Theorem resource_type_names :
  forall (ProviderTypeName version : string),
    ProjectResource_Metadata ProviderTypeName
    <> ProjectMemberResource_Metadata ProviderTypeName
    /\ ProjectDataSource_Metadata ProviderTypeName
       = ProjectResource_Metadata ProviderTypeName
    /\ ProjectResource_Metadata (fst (SwitchcloudProvider_Metadata version))
       = "switchcloud_project"
    /\ ProjectMemberResource_Metadata (fst (SwitchcloudProvider_Metadata version))
       = "switchcloud_project_member".
Proof.
  intros p version. repeat split.
  unfold ProjectResource_Metadata, ProjectMemberResource_Metadata.
  intros Heq. apply append_cancel_l in Heq. discriminate.
Qed.

(** ** Further properties: the schemas *)

(** X14. In the schemas of the two resources every attribute the user can
    set (required or optional) requires replacement when it changes, so no
    change of the configuration is planned as an update in place; no
    attribute is required and at the same time optional or computed; [id]
    is computed and keeps its state value while unknown.  Each schema has
    exactly the attributes its model has [tfsdk] tags for. *)
Theorem schemas_are_consistent :
  map_Forall (fun _ a => resource_attribute_ok a = true) ProjectResource.Schema
  /\ map_Forall (fun _ a => resource_attribute_ok a = true)
       ProjectMemberResource.Schema
  /\ map_Forall (fun _ a => roles_ok a = true) ProjectDataSource.Schema
  /\ ProjectResource.Schema !! "id"
     = Some (Attribute.computed [UseStateForUnknown])
  /\ ProjectMemberResource.Schema !! "id"
     = Some (Attribute.computed [UseStateForUnknown])
  /\ dom ProjectResource.Schema = list_to_set ProjectResourceModel_tfsdk
  /\ dom ProjectMemberResource.Schema
     = list_to_set ProjectMemberResourceModel_tfsdk
  /\ dom ProjectDataSource.Schema = list_to_set ProjectDataSourceModel_tfsdk.
Proof.
  repeat split; try (vm_compute; reflexivity);
    try (apply bool_decide_unpack; vm_compute; exact I);
    intros k a Hk; apply elem_of_list_to_map_2 in Hk;
    repeat (apply elem_of_cons in Hk as [Hk|Hk];
            [injection Hk as -> ->; reflexivity|]);
    apply elem_of_nil in Hk; contradiction.
Qed.

(** ** Further properties: the body of a create request *)

Lemma omitempty_cases (key value : string) :
  (value = "" /\ omitempty key value = [])
  \/ (value <> "" /\ omitempty key value = [(key, JStr value)]).
Proof.
  unfold omitempty. destruct (String.eqb_spec value "") as [->|Hne]; auto.
Qed.

(** X15. The body of a create request holds desired values of inputs and
    nothing else.  For a project it is the [name], always, followed by the
    [description] only when that is known and not empty.  For a project
    member it is empty, or the known non-empty [user_id] alone, or the
    known non-empty [email] alone (and then [user_id] is unknown): never
    both identifiers, never [project_id], never a computed attribute. *)
Theorem create_request_bodies `{GoLib} :
  forall (endpoint : string) (pplan : ProjectResourceModel.t)
         (mplan : ProjectMemberResourceModel.t)
         (pst : option ProjectResourceModel.t)
         (mst : option ProjectMemberResourceModel.t) (w : World),
    let pr := {| ProjectResource.client := DefaultClient;
                 ProjectResource.endpoint := endpoint |} in
    let mr := {| ProjectMemberResource.client := DefaultClient;
                 ProjectMemberResource.endpoint := endpoint |} in
    let purl := strings_TrimSuffix endpoint "/" +:+ "/api/v1/projects" in
    let murl := strings_TrimSuffix endpoint "/" +:+ "/api/v1/projects/"
                +:+ ValueString (ProjectMemberResourceModel.ProjectId mplan)
                +:+ "/members" in
    (url_Parse_error purl = None ->
     exists rest,
       sent (snd (ProjectResource.Create pr pplan (new_resp pst) w))
       = sent w ++ [POST purl
                      (JObj (("name",
                              JStr (ValueString (ProjectResourceModel.Name pplan)))
                             :: rest))]
       /\ (rest = []
           \/ exists d, d <> ""
                /\ ProjectResourceModel.Description pplan = Known d
                /\ rest = [("description", JStr d)]))
    /\ (url_Parse_error murl = None ->
        exists body,
          sent (snd (ProjectMemberResource.Create mr mplan (new_resp mst) w))
          = sent w ++ [POST murl (JObj body)]
          /\ (body = []
              \/ (exists u, u <> ""
                    /\ ProjectMemberResourceModel.UserId mplan = Known u
                    /\ body = [("user_id", JStr u)])
              \/ (exists e, e <> ""
                    /\ ProjectMemberResourceModel.UserId mplan = Unknown
                    /\ ProjectMemberResourceModel.EMail mplan = Known e
                    /\ body = [("email", JStr e)]))).
Proof.
  intros endpoint pplan mplan pst mst w pr mr purl murl.
  subst pr mr purl murl. split.
  - intros Hurl.
    exists (omitempty "description"
              (ValueString (ProjectResourceModel.Description pplan))).
    split.
    + unfold ProjectResource.Create.
      assert (Hdesc :
        (if negb (IsNull (ProjectResourceModel.Description pplan))
         then ValueString (ProjectResourceModel.Description pplan) else "")
        = ValueString (ProjectResourceModel.Description pplan)).
      { destruct (ProjectResourceModel.Description pplan); reflexivity. }
      rewrite Hdesc.
      unfold ProjectCreateRequest.marshal.
      cbn [ProjectCreateRequest.Name ProjectCreateRequest.Description app
           ProjectResource.endpoint ProjectResource.client].
      with_default_client Hurl.
      change (Header_Set (Header_Set _ _ _) _ _)
        with (POST (strings_TrimSuffix endpoint "/" +:+ "/api/v1/projects")
                (JObj (("name",
                        JStr (ValueString (ProjectResourceModel.Name pplan)))
                       :: omitempty "description"
                            (ValueString
                               (ProjectResourceModel.Description pplan))))).
      branches; reflexivity.
    + destruct (omitempty_cases "description"
                  (ValueString (ProjectResourceModel.Description pplan)))
        as [[_ ->]|[Hne ->]]; [left; reflexivity|].
      right. destruct (ProjectResourceModel.Description pplan) as [| |d];
        simpl in *; try congruence.
      exists d. auto.
  - intros Hurl.
    unfold ProjectMemberResource.Create.
    cbn [ProjectMemberResource.endpoint ProjectMemberResource.client].
    destruct (ProjectMemberResourceModel.UserId mplan) as [| |u] eqn:Hu;
      cbn [IsUnknown ValueString ProjectMemberCreateRequest.zero
           ProjectMemberCreateRequest.UserId ProjectMemberCreateRequest.EMail];
      unfold ProjectMemberCreateRequest.marshal;
      cbn [ProjectMemberCreateRequest.UserId ProjectMemberCreateRequest.EMail].
    + exists []. split; [|left; reflexivity].
      with_default_client Hurl. branches; reflexivity.
    + exists (omitempty "email"
                (ValueString (ProjectMemberResourceModel.EMail mplan))).
      split; [with_default_client Hurl; branches; reflexivity|].
      destruct (omitempty_cases "email"
                  (ValueString (ProjectMemberResourceModel.EMail mplan)))
        as [[_ ->]|[Hne ->]]; [left; reflexivity|].
      right; right.
      destruct (ProjectMemberResourceModel.EMail mplan) as [| |e];
        simpl in *; try congruence.
      exists e. auto.
    + exists (omitempty "user_id" u).
      split; [with_default_client Hurl;
              change (omitempty "email" "") with (@nil (string * json));
              rewrite app_nil_r; branches; reflexivity|].
      destruct (omitempty_cases "user_id" u) as [[_ ->]|[Hne ->]];
        [left; reflexivity|].
      right; left. exists u. auto.
Qed.

(** ** The further properties at concrete inputs *)

Lemma every_request_carries_the_key_instance :
  exists new,
    exchanged (world_answering project_not_found)
      (snd (ProjectResource.Read (H := example_lib)
              {| ProjectResource.client :=
                   ProviderData.client
                     (SwitchcloudProvider.Configure no_env keyed_config);
                 ProjectResource.endpoint := "https://api.switchcloud.com" |}
              p1_state (new_resp (Some p1_state))
              (world_answering project_not_found)))
      new
    /\ Forall (bearer "test-api-key") new.
Proof.
  destruct (every_request_carries_the_key (H := example_lib) no_env
              keyed_config "test-api-key" "https://api.switchcloud.com"
              (world_answering project_not_found) eq_refl)
    as (_ & HRead & _).
  exact (HRead p1_state (new_resp (Some p1_state))).
Defined.

Lemma trailing_slash_of_endpoint_is_ignored_instance :
  ProjectResource.Read (H := example_lib)
    {| ProjectResource.client := DefaultClient;
       ProjectResource.endpoint := "https://api.switchcloud.com/" |}
    p1_state (new_resp (Some p1_state)) (world_answering project_not_found)
  = ProjectResource.Read (H := example_lib) example_project_resource
      p1_state (new_resp (Some p1_state)) (world_answering project_not_found).
Proof.
  destruct (trailing_slash_of_endpoint_is_ignored (H := example_lib)
              DefaultClient "https://api.switchcloud.com" eq_refl)
    as (_ & HRead & _).
  exact (HRead p1_state (new_resp (Some p1_state))
           (world_answering project_not_found)).
Defined.



Lemma Member_import_outcomes_instance :
  let res := fst (ProjectMemberResource.ImportState (H := example_lib)
                    example_member_resource "proj-1/mem-9" (new_resp None)
                    (world_answering overloaded)) in
  (diags res = []
   /\ exists m, State res = Some m /\ member_all_known m = true)
  \/ (diags res = [] /\ State res = None)
  \/ ((exists detail, diags res = [client_error detail])
      /\ State res = Some member_identity).
Proof.
  apply (Member_import_outcomes (H := example_lib) example_member_resource
           "proj-1" "mem-9" None (world_answering overloaded)
           eq_refl eq_refl).
Defined.

Lemma DataSource_Read_outcomes_instance :
  ProjectDataSource.Read (H := example_lib) example_data_source test1_config
    (new_resp None) (world_answering project_not_found)
  = ({| diags := [NewErrorDiagnostic "Client Error"
                    ("API returned status 404: Project not found"
                     +:+ String "010"%char "")];
        State := None |},
     after (world_answering project_not_found)
       (GET "https://api.switchcloud.com/api/v1/projects")).
Proof.
  destruct (DataSource_Read_outcomes (H := example_lib) example_data_source
              test1_config None (world_answering project_not_found))
    as [_ Hrejected].
  apply (Hrejected _ project_not_found
           (text_bytes "Project not found" not_json) eq_refl eq_refl eq_refl).
  discriminate.
Defined.

Lemma missing_description_is_stored_empty_instance :
  Project.Description (project_of "p1" "Test Project") = ""
  /\ ProjectResourceModel.Description
       (ProjectResourceModel.of_Project (project_of "p1" "Test Project"))
     = Known ""
  /\ ProjectDataSourceModel.Description
       (ProjectDataSourceModel.of_Project (project_of "p1" "Test Project"))
     = Known "".
Proof.
  apply (missing_description_is_stored_empty (H := example_lib)
           [("id", JStr "p1"); ("name", JStr "Test Project");
            ("organisation_id", JStr "org1"); ("archived", JBool false);
            ("archived_at", JStr ""); ("created_at", JStr t0);
            ("updated_at", JStr t0)]
           (json_bytes p1_doc) (project_of "p1" "Test Project") eq_refl);
    [repeat constructor | reflexivity].
Defined.

Lemma create_request_bodies_instance :
  (exists rest,
      sent (snd (ProjectResource.Create (H := example_lib)
                   example_project_resource test_project_plan (new_resp None)
                   (world_answering created_p1)))
      = [POST "https://api.switchcloud.com/api/v1/projects"
           (JObj (("name", JStr "Test Project") :: rest))]
      /\ (rest = []
          \/ exists d, d <> ""
               /\ ProjectResourceModel.Description test_project_plan = Known d
               /\ rest = [("description", JStr d)]))
  /\ (exists body,
        sent (snd (ProjectMemberResource.Create (H := example_lib)
                     example_member_resource plan_with_email (new_resp None)
                     (world_answering member_not_found)))
        = [POST members_url (JObj body)]
        /\ (body = []
            \/ (exists u, u <> ""
                  /\ ProjectMemberResourceModel.UserId plan_with_email = Known u
                  /\ body = [("user_id", JStr u)])
            \/ (exists e, e <> ""
                  /\ ProjectMemberResourceModel.UserId plan_with_email = Unknown
                  /\ ProjectMemberResourceModel.EMail plan_with_email = Known e
                  /\ body = [("email", JStr e)]))).
Proof.
  destruct (create_request_bodies (H := example_lib)
              "https://api.switchcloud.com" test_project_plan plan_with_email
              None None (world_answering created_p1)) as [HP _].
  destruct (create_request_bodies (H := example_lib)
              "https://api.switchcloud.com" test_project_plan plan_with_email
              None None (world_answering member_not_found)) as [_ HM].
  split; [exact (HP eq_refl) | exact (HM eq_refl)].
Defined.

(** ** Further properties: the test server *)

Lemma var_singleton (k v : string) : var {[k := v]} k = v.
Proof. unfold var. rewrite lookup_singleton_eq. reflexivity. Qed.

Lemma var_insert_eq (vars : gmap string string) (k v : string) :
  var (<[k := v]> vars) k = v.
Proof. unfold var. rewrite lookup_insert_eq. reflexivity. Qed.

Lemma var_insert_ne (vars : gmap string string) (k k' v : string) :
  k <> k' -> var (<[k := v]> vars) k' = var vars k'.
Proof. intros Hne. unfold var. rewrite lookup_insert_ne by exact Hne. reflexivity. Qed.


(** X17. The life of a member on the test server.  Once a member has been
    posted under a project, it is fetched and deleted through any project
    that exists (the project of the path is only checked to exist): the GET
    answers 200 with the document of the 201, the DELETE answers 204
    without a body and leaves the projects and the other members alone.
    After the DELETE the member is gone: a GET and a second DELETE both
    answer 404 "Project Member not found". *)
Theorem server_member_lifecycle `{GoLib} :
  forall (s s1 : Server.t) (pid q uuid user_uuid email name now1 now2 : string)
         (body : result json) (a : Answer.t),
    handlePostProjectMember s {["project_id" := pid]}
      uuid user_uuid email name now1 now2 body = (s1, a) ->
    Answer.status a = 201%Z ->
    is_Some (Server.projects s !! q) ->
    let vars : gmap string string := <["project_id" := q]> {["id" := uuid]} in
    let s2 := fst (handleDeleteProjectMember s1 vars) in
    handleGetProjectMember s1 vars
    = (s1, {| Answer.status := 200; Answer.body := Answer.body a |})
    /\ snd (handleDeleteProjectMember s1 vars)
       = {| Answer.status := 204; Answer.body := NoBody |}
    /\ Server.projects s2 = Server.projects s
    /\ (forall other, other <> uuid ->
          Server.projectMembers s2 !! other = Server.projectMembers s !! other)
    /\ handleGetProjectMember s2 vars
       = (s2, http_Error "Project Member not found" 404)
    /\ handleDeleteProjectMember s2 vars
       = (s2, http_Error "Project Member not found" 404).
Proof.
  intros s s1 pid q uuid user_uuid email name now1 now2 body a Hpost Hstatus
         [pq Hq] vars s2.
  unfold handlePostProjectMember in Hpost.
  rewrite var_singleton in Hpost.
  destruct (Server.projects s !! pid) as [pp|];
    [|injection Hpost as <- <-; discriminate Hstatus].
  destruct (Decoder_Decode ServerProjectMember.decode body) as [m|err];
    [|injection Hpost as <- <-; discriminate Hstatus].
  set (stored := ServerProjectMember.set_UpdatedAt _ _) in Hpost.
  assert (Hstored : ServerProjectMember.Id stored = uuid).
  { subst stored. cbn [ServerProjectMember.Id ServerProjectMember.set_UpdatedAt
                       ServerProjectMember.set_CreatedAt
                       ServerProjectMember.set_ProjectId
                       ServerProjectMember.set_DisplayName].
    repeat match goal with
           | |- context [if ?b then _ else _] => destruct b
           end; reflexivity. }
  rewrite Hstored in Hpost. clearbody stored.
  injection Hpost as <- <-.
  assert (Hid : var vars "id" = uuid).
  { subst vars. rewrite var_insert_ne by discriminate. apply var_singleton. }
  assert (Hproject : var vars "project_id" = q).
  { subst vars. apply var_insert_eq. }
  subst s2.
  unfold handleGetProjectMember, handleDeleteProjectMember.
  rewrite Hid, Hproject.
  cbn [Server.projects Server.projectMembers].
  rewrite Hq, !lookup_insert_eq.
  cbn [fst snd Server.projects Server.projectMembers Answer.body].
  rewrite Hq, !lookup_delete_eq.
  repeat split.
  intros other Hother. rewrite lookup_delete_ne by congruence.
  rewrite lookup_insert_ne by congruence. reflexivity.
Qed.

(** X18. The test server keeps its store consistent.  In the state [main]
    starts with, every project is stored under its own identifier and
    belongs to the organisation of the server, every member is stored under
    its own identifier, and the project of every member exists; and each of
    the five handlers keeps it so, whatever the request. *)
Theorem server_store_stays_consistent `{GoLib} :
  forall (orgId : string), Server_ok (Server_main orgId)
  /\ forall (s : Server.t), Server_ok s ->
     (forall uuid now1 now2 body,
         Server_ok (fst (handlePostProject s uuid now1 now2 body)))
     /\ (forall vars, Server_ok (fst (handleGetProject s vars)))
     /\ (forall vars uuid user_uuid email name now1 now2 body,
           Server_ok (fst (handlePostProjectMember s vars uuid user_uuid email
                             name now1 now2 body)))
     /\ (forall vars, Server_ok (fst (handleGetProjectMember s vars)))
     /\ (forall vars, Server_ok (fst (handleDeleteProjectMember s vars))).
Proof.
  intros orgId. split.
  - split.
    + intros k p Hk. unfold Server_main in Hk. cbn [Server.projects] in Hk.
      apply lookup_insert_Some in Hk as [[<- <-]|[_ Hk]];
        [split; reflexivity | rewrite lookup_empty in Hk; discriminate].
    + intros k m Hk. unfold Server_main in Hk.
      cbn [Server.projectMembers] in Hk. rewrite lookup_empty in Hk.
      discriminate.
  - intros s [Hprojects Hmembers].
    split; [|split; [|split; [|split]]].
    + intros uuid now1 now2 body. unfold handlePostProject.
      destruct (Decoder_Decode ServerProject.decode body) as [p|err];
        [|split; assumption].
      cbn [fst ServerProject.Id ServerProject.set_Id
           ServerProject.set_OrganisationId ServerProject.set_CreatedAt
           ServerProject.set_UpdatedAt].
      split; cbn [Server.projects Server.projectMembers Server.orgId].
      * intros k q Hk.
        apply lookup_insert_Some in Hk as [[<- <-]|[_ Hk]];
          [split; reflexivity | exact (Hprojects k q Hk)].
      * intros k m Hk. destruct (Hmembers k m Hk) as [Hid Hproject].
        split; [exact Hid|].
        apply lookup_insert_is_Some.
        destruct (decide (uuid = ServerProjectMember.ProjectId m));
          [left; assumption | right; split; assumption].
    + intros vars. unfold handleGetProject.
      destruct (Server.projects s !! var vars "id"); split; assumption.
    + intros vars uuid user_uuid email name now1 now2 body.
      unfold handlePostProjectMember.
      destruct (Server.projects s !! var vars "project_id") as [pp|] eqn:Hpp;
        [|split; assumption].
      destruct (Decoder_Decode ServerProjectMember.decode body) as [m|err];
        [|split; assumption].
      set (stored := ServerProjectMember.set_UpdatedAt _ _).
      assert (Hstored : ServerProjectMember.Id stored = uuid
                        /\ ServerProjectMember.ProjectId stored
                           = var vars "project_id").
      { subst stored.
        cbn [ServerProjectMember.Id ServerProjectMember.ProjectId
             ServerProjectMember.set_UpdatedAt
             ServerProjectMember.set_CreatedAt
             ServerProjectMember.set_ProjectId
             ServerProjectMember.set_DisplayName].
        split; [|reflexivity].
        repeat match goal with
               | |- context [if ?b then _ else _] => destruct b
               end; reflexivity. }
      destruct Hstored as [Hid Hproject]. rewrite Hid. clearbody stored.
      split; cbn [fst Server.projects Server.projectMembers Server.orgId];
        [exact Hprojects|].
      intros k m' Hk.
      apply lookup_insert_Some in Hk as [[<- <-]|[_ Hk]];
        [|exact (Hmembers k m' Hk)].
      split; [exact Hid|]. rewrite Hproject, Hpp. eexists; reflexivity.
    + intros vars. unfold handleGetProjectMember.
      destruct (Server.projects s !! var vars "project_id");
        [|split; assumption].
      destruct (Server.projectMembers s !! var vars "id"); split; assumption.
    + intros vars. unfold handleDeleteProjectMember.
      destruct (Server.projects s !! var vars "project_id");
        [|split; assumption].
      destruct (Server.projectMembers s !! var vars "id");
        [|split; assumption].
      split; cbn [fst Server.projects Server.projectMembers Server.orgId];
        [exact Hprojects|].
      intros k m' Hk. apply lookup_delete_Some in Hk as [_ Hk].
      exact (Hmembers k m' Hk).
Qed.

(** ** Further properties: the provider and the test server together *)

(** X19. What the provider sends to create a project and what the test
    server answers fit together.  The server decodes the body of the
    request, stores the project and answers 201 with a document that the
    provider decodes to: the [id], the organisation and the two timestamps
    the server has assigned, the name as sent, the description as sent (an
    empty description is left out of the request and of the answer, and
    comes back empty), not archived. *)
Theorem project_create_round_trip `{GoLib} :
  folds_like_ascii ->
  forall (s : Server.t) (uuid now1 now2 n d : string),
  exists (doc : json) (s' : Server.t),
    handlePostProject s uuid now1 now2
      (Ok (ProjectCreateRequest.marshal
             {| ProjectCreateRequest.Name := n;
                ProjectCreateRequest.Description := d |}))
    = (s', {| Answer.status := 201; Answer.body := JsonLine doc |})
    /\ Project.decode doc
       = Ok {| Project.Id := uuid; Project.Name := n;
               Project.Description := d;
               Project.OrganisationId := Server.orgId s;
               Project.Archived := false; Project.ArchivedAt := "";
               Project.CreatedAt := now1; Project.UpdatedAt := now2 |}.
Proof.
  intros Hfold s uuid now1 now2 n d.
  use_folding Hfold.
  unfold handlePostProject, Decoder_Decode, ProjectCreateRequest.marshal.
  cbn [ProjectCreateRequest.Name ProjectCreateRequest.Description].
  destruct (omitempty_cases "description" d) as [[-> ->]|[_ ->]];
    decode_now; (do 2 eexists; split; [reflexivity|]);
    decode_now; reflexivity.
Qed.

(** X20. What the provider sends to create a project member and what the
    test server answers fit together.  Under a project that exists the
    server answers 201 with a document that the provider decodes to: the
    [id] the server has assigned, the project of the path, the [user_id]
    and the email as sent, or generated by the server where the request
    left them out, and the display name the server has generated.  The
    provider reads the email and the display name from the [user] object
    of the answer. *)
Theorem member_create_round_trip `{GoLib} :
  folds_like_ascii ->
  forall (s : Server.t) (pid uuid user_uuid email name now1 now2 u e : string),
    is_Some (Server.projects s !! pid) ->
    exists (doc : json) (s' : Server.t),
      handlePostProjectMember s {["project_id" := pid]}
        uuid user_uuid email name now1 now2
        (Ok (ProjectMemberCreateRequest.marshal
               {| ProjectMemberCreateRequest.UserId := u;
                  ProjectMemberCreateRequest.EMail := e |}))
      = (s', {| Answer.status := 201; Answer.body := JsonLine doc |})
      /\ ProjectMember.decode doc
         = Ok {| ProjectMember.Id := uuid;
                 ProjectMember.ProjectId := pid;
                 ProjectMember.UserId :=
                   if String.eqb u "" then user_uuid else u;
                 ProjectMember.User :=
                   {| ProjectMemberUser.Id :=
                        if String.eqb u "" then user_uuid else u;
                      ProjectMemberUser.EMail :=
                        if String.eqb e "" then email else e;
                      ProjectMemberUser.DisplayName := name |} |}.
Proof.
  intros Hfold s pid uuid user_uuid email name now1 now2 u e [p Hp].
  use_folding Hfold.
  unfold handlePostProjectMember, Decoder_Decode,
         ProjectMemberCreateRequest.marshal.
  rewrite var_singleton, Hp.
  cbn [ProjectMemberCreateRequest.UserId ProjectMemberCreateRequest.EMail].
  destruct (omitempty_cases "user_id" u) as [[-> ->]|[Hu ->]];
    destruct (omitempty_cases "email" e) as [[-> ->]|[He ->]];
    try (apply String.eqb_neq in Hu; try rewrite Hu);
    try (apply String.eqb_neq in He; try rewrite He);
    repeat (progress (decode_now; rewrite ?Hu, ?He));
    (do 2 eexists; split; [reflexivity|]);
    repeat (progress (decode_now; rewrite ?Hu, ?He));
    reflexivity.
Qed.

(** ** The properties of the test server at concrete inputs *)

Lemma example_lib_folds_like_ascii : folds_like_ascii (H := example_lib).
Proof. repeat constructor. Qed.


Lemma server_member_lifecycle_instance :
  let r := handlePostProjectMember (H := example_lib) server0
             {["project_id" := test1_id]} "mem-9" "user-1" "user@example.com"
             "Test User" t0 t0 (Ok (JObj [("user_id", JStr "user-12345")])) in
  let vars : gmap string string :=
    <["project_id" := test1_id]> {["id" := "mem-9"]} in
  let s2 := fst (handleDeleteProjectMember (fst r) vars) in
  handleGetProjectMember (fst r) vars
  = (fst r, {| Answer.status := 200; Answer.body := Answer.body (snd r) |})
  /\ snd (handleDeleteProjectMember (fst r) vars)
     = {| Answer.status := 204; Answer.body := NoBody |}
  /\ Server.projects s2 = Server.projects server0
  /\ (forall other, other <> "mem-9" ->
        Server.projectMembers s2 !! other
        = Server.projectMembers server0 !! other)
  /\ handleGetProjectMember s2 vars
     = (s2, http_Error "Project Member not found" 404)
  /\ handleDeleteProjectMember s2 vars
     = (s2, http_Error "Project Member not found" 404).
Proof.
  intros r.
  apply (server_member_lifecycle (H := example_lib) server0 (fst r) test1_id
           test1_id "mem-9" "user-1" "user@example.com" "Test User" t0 t0
           (Ok (JObj [("user_id", JStr "user-12345")])) (snd r)).
  - apply surjective_pairing.
  - reflexivity.
  - eexists. reflexivity.
Defined.

Lemma server_store_stays_consistent_instance :
  Server_ok (fst (handlePostProjectMember (H := example_lib) server0
                    {["project_id" := test1_id]} "mem-9" "user-1"
                    "user@example.com" "Test User" t0 t0
                    (Ok (JObj [("user_id", JStr "user-12345")])))).
Proof.
  destruct (server_store_stays_consistent (H := example_lib) "org1")
    as [Hmain Hkeep].
  destruct (Hkeep server0 Hmain) as (_ & _ & Hpost & _).
  apply Hpost.
Defined.

Lemma project_create_round_trip_instance :
  exists (doc : json) (s' : Server.t),
    handlePostProject (H := example_lib) server0 "p1" t0 t0
      (Ok (ProjectCreateRequest.marshal
             {| ProjectCreateRequest.Name := "Test Project";
                ProjectCreateRequest.Description := "" |}))
    = (s', {| Answer.status := 201; Answer.body := JsonLine doc |})
    /\ Project.decode (H := example_lib) doc
       = Ok {| Project.Id := "p1"; Project.Name := "Test Project";
               Project.Description := "";
               Project.OrganisationId := "org1";
               Project.Archived := false; Project.ArchivedAt := "";
               Project.CreatedAt := t0; Project.UpdatedAt := t0 |}.
Proof.
  apply (project_create_round_trip (H := example_lib)
           example_lib_folds_like_ascii server0 "p1" t0 t0 "Test Project" "").
Defined.

Lemma member_create_round_trip_instance :
  exists (doc : json) (s' : Server.t),
    handlePostProjectMember (H := example_lib) server0
      {["project_id" := test1_id]} "mem-9" "user-1" "generated@example.com"
      "Test User" t0 t0
      (Ok (ProjectMemberCreateRequest.marshal
             {| ProjectMemberCreateRequest.UserId := "";
                ProjectMemberCreateRequest.EMail := "user@example.com" |}))
    = (s', {| Answer.status := 201; Answer.body := JsonLine doc |})
    /\ ProjectMember.decode (H := example_lib) doc
       = Ok {| ProjectMember.Id := "mem-9";
               ProjectMember.ProjectId := test1_id;
               ProjectMember.UserId := "user-1";
               ProjectMember.User :=
                 {| ProjectMemberUser.Id := "user-1";
                    ProjectMemberUser.EMail := "user@example.com";
                    ProjectMemberUser.DisplayName := "Test User" |} |}.
Proof.
  apply (member_create_round_trip (H := example_lib)
           example_lib_folds_like_ascii server0 test1_id "mem-9" "user-1"
           "generated@example.com" "Test User" t0 t0 "" "user@example.com").
  eexists. reflexivity.
Defined.

(** ** Further properties: the server of the integration example *)

Lemma to_int_not_nil (z : Z) :
  Z.to_int z <> Decimal.Pos Decimal.Nil /\ Z.to_int z <> Decimal.Neg Decimal.Nil.
Proof.
  destruct z as [|p|p]; simpl; split; try discriminate;
    intros Heq; injection Heq as Heq;
    exact (DecimalPos.Unsigned.to_uint_nonnil p Heq).
Qed.

Lemma fmt_d_inj (a b : Z) : fmt_d a = fmt_d b -> a = b.
Proof.
  unfold fmt_d. intros Heq. apply DecimalZ.to_int_inj.
  destruct (to_int_not_nil a) as [Ha1 Ha2].
  destruct (to_int_not_nil b) as [Hb1 Hb2].
  pose proof (NilZero.isi (Z.to_int a) Ha1 Ha2) as Ha.
  pose proof (NilZero.isi (Z.to_int b) Hb1 Hb2) as Hb.
  rewrite Heq in Ha. rewrite Ha in Hb. injection Hb as Hab. exact Hab.
Qed.

(** X21. The server of the integration example never hands out an
    identifier twice.  From the projects [main] starts with, a POST that is
    answered 201 stores its project under an identifier no project had:
    the projects there were stay as they are and there is one more; a POST
    that is answered otherwise stores nothing. *)
Theorem integration_server_never_reuses_an_identifier `{GoLib} :
  Numbered Integration_main
  /\ forall (projects : gmap string ServerProject.t) (body : result json),
       Numbered projects ->
       let res := Integration_handlePostProject projects body in
       Numbered (fst res)
       /\ (Answer.status (snd res) = 201%Z ->
           exists id,
             projects !! id = None
             /\ is_Some (fst res !! id)
             /\ (forall k, k <> id -> fst res !! k = projects !! k)
             /\ size (fst res) = S (size projects))
       /\ (Answer.status (snd res) <> 201%Z -> fst res = projects).
Proof.
  split.
  - intros k [p Hk]. unfold Integration_main in Hk.
    cbn [ServerProject.Id] in Hk.
    apply lookup_insert_Some in Hk as [[<- _]|[_ Hk]];
      [left; reflexivity | rewrite lookup_empty in Hk; discriminate].
  - intros projects body Hnumbered res. subst res.
    unfold Integration_handlePostProject.
    destruct (Decoder_Decode ServerProject.decode body) as [p|err];
      cbn [fst snd Answer.status http_Error ServerProject.Id
           ServerProject.set_Id ServerProject.set_OrganisationId
           ServerProject.set_CreatedAt ServerProject.set_UpdatedAt];
      [|split; [exact Hnumbered | split; [discriminate | reflexivity]]].
    match goal with
    | |- context [<[?k := ?v]> projects] =>
        set (stored := v); set (id := k) in *
    end.
    assert (Hfresh : projects !! id = None).
    { destruct (projects !! id) as [q|] eqn:Hq; [|reflexivity]. exfalso.
      destruct (Hnumbered id (ex_intro _ q Hq)) as [Hseed|(n & Hn & Heq)].
      - discriminate Hseed.
      - subst id. apply append_cancel_l, fmt_d_inj in Heq. lia. }
    assert (Hsize : size (<[id := stored]> projects) = S (size projects))
      by (apply map_size_insert_None; exact Hfresh).
    split; [|split].
    + intros k Hk. rewrite Hsize.
      destruct (decide (k = id)) as [->|Hne].
      * right. exists (S (size projects)). split; [lia|].
        subst id. f_equal. f_equal. lia.
      * rewrite lookup_insert_ne in Hk by congruence.
        destruct (Hnumbered k Hk) as [Hseed|(n & Hn & Heq)];
          [left; exact Hseed | right; exists n; split; [lia | exact Heq]].
    + intros _. exists id. split; [exact Hfresh|].
      split; [rewrite lookup_insert_eq; eexists; reflexivity|].
      split; [|exact Hsize].
      intros k Hk. apply lookup_insert_ne. congruence.
    + intros Hstatus. exfalso. apply Hstatus. reflexivity.
Qed.

Lemma integration_server_never_reuses_an_identifier_instance :
  let res := Integration_handlePostProject (H := example_lib) Integration_main
               (Ok (JObj [("name", JStr "Test Project")])) in
  Numbered (fst res)
  /\ (Answer.status (snd res) = 201%Z ->
      exists id,
        Integration_main !! id = None
        /\ is_Some (fst res !! id)
        /\ (forall k, k <> id -> fst res !! k = Integration_main !! k)
        /\ size (fst res) = S (size Integration_main))
  /\ (Answer.status (snd res) <> 201%Z -> fst res = Integration_main).
Proof.
  destruct (integration_server_never_reuses_an_identifier (H := example_lib))
    as [Hmain Hpost].
  exact (Hpost Integration_main (Ok (JObj [("name", JStr "Test Project")]))
           Hmain).
Defined.
